(** * GroceryShoppingAssist: the ingredient aggregation pipeline of [app.py]

    A shallow embedding of [aggregate_ingredients] and of the
    "Generate Grocery List" handler, over a small universe of Python
    values (the values [json.loads] produces), with Python's exceptions
    as an explicit result type. *)

From Stdlib Require Import List NArith ZArith Bool Lia String Ascii Sorted.
Import ListNotations.

Set Implicit Arguments.

(* ================================================================== *)
(** * Python strings *)
(* ================================================================== *)

(** A [str] is a sequence of Unicode code points.  The case tables below
    are those of CPython for the code points U+0000..U+00FF (ASCII and
    Latin-1); a code point above U+00FF is left as it is by the tables.
    The statements that rest on what the tables say are stated for ASCII
    strings, or evaluate the functions on strings of Latin-1 code points;
    every other statement uses [lower] and [title] as functions and
    nothing of their tables. *)
Module PyStr.

Local Open Scope N_scope.

Definition pystr : Type := list N.

(** A literal, written as a Rocq string of one-byte characters. *)
Definition lit (s : string) : pystr :=
  List.map N_of_ascii (list_ascii_of_string s).

Fixpoint eqb (a b : pystr) : bool :=
  match a, b with
  | [], [] => true
  | x :: a', y :: b' => (x =? y) && eqb a' b'
  | _, _ => false
  end.

Definition between (lo hi c : N) : bool := (lo <=? c) && (c <=? hi).

(** Code points with a one-to-one lower-case partner 32 places up:
    A-Z and U+00C0..U+00DE without the multiplication sign U+00D7. *)
Definition has_lower (c : N) : bool :=
  between 0x41 0x5A c || (between 0xC0 0xDE c && negb (c =? 0xD7)).

(** Code points with a one-to-one title-case partner 32 places down:
    a-z and U+00E0..U+00FE without the division sign U+00F7. *)
Definition has_upper (c : N) : bool :=
  between 0x61 0x7A c || (between 0xE0 0xFE c && negb (c =? 0xF7)).

(** [_PyUnicode_ToLowerFull] on one code point. *)
Definition lower_cp (c : N) : N := if has_lower c then c + 32 else c.

(** [_PyUnicode_ToTitleFull] on one code point: the only Latin-1 code point
    whose title case is two code points is U+00DF (sharp s, "Ss"); U+00FF
    and U+00B5 have their title case outside Latin-1. *)
Definition title_cp (c : N) : pystr :=
  if has_upper c then [c - 32]
  else if c =? 0xDF then [0x53; 0x73]
  else if c =? 0xFF then [0x178]
  else if c =? 0xB5 then [0x39C]
  else [c].

(** [_PyUnicode_IsCased]. *)
Definition is_cased (c : N) : bool :=
  has_lower c || has_upper c
  || (c =? 0xAA) || (c =? 0xB5) || (c =? 0xBA) || (c =? 0xDF) || (c =? 0xFF).

(** [str.lower()]. *)
Definition lower (s : pystr) : pystr := List.map lower_cp s.

(** [str.title()]: a code point that follows a cased one is lower-cased,
    any other is title-cased. *)
Fixpoint title_from (previous_is_cased : bool) (s : pystr) : pystr :=
  match s with
  | [] => []
  | c :: r =>
      (if previous_is_cased then [lower_cp c] else title_cp c)
        ++ title_from (is_cased c) r
  end.

Definition title (s : pystr) : pystr := title_from false s.

(** [str.isspace()] on one code point. *)
Definition is_space (c : N) : bool :=
  between 0x09 0x0D c || between 0x1C 0x20 c || (c =? 0x85) || (c =? 0xA0)
  || (c =? 0x1680) || between 0x2000 0x200A c || (c =? 0x2028)
  || (c =? 0x2029) || (c =? 0x202F) || (c =? 0x205F) || (c =? 0x3000).

Fixpoint lstrip (s : pystr) : pystr :=
  match s with
  | c :: r => if is_space c then lstrip r else s
  | [] => []
  end.

(** [str.strip()]. *)
Definition strip (s : pystr) : pystr := rev (lstrip (rev (lstrip s))).

Definition is_ascii (s : pystr) : bool := forallb (fun c => c <? 128) s.

End PyStr.

Abbreviation pystr := PyStr.pystr.
Abbreviation lit := PyStr.lit.

(* ================================================================== *)
(** * Python values, exceptions and results *)
(* ================================================================== *)

(** The values [json.loads] builds, numbers being integers here.  A
    [dict] is an association list in insertion order whose keys are
    strings, read by its first binding. *)
#[warnings="-register-all"]
Inductive pyval : Type :=
| VNone
| VBool (b : bool)
| VInt (z : Z)
| VStr (s : pystr)
| VList (l : list pyval)
| VDict (d : list (pystr * pyval)).

Inductive pyexc : Type := KeyError | TypeError | AttributeError.

(** What an evaluation ends in: a value, a raised exception, or
    [OutOfModel] where the source renders a value that is not a [str] into
    text (the f-string of a non-string quantity), which this embedding
    does not describe. *)
Inductive result (A : Type) : Type :=
| Ok (a : A)
| Raise (e : pyexc)
| OutOfModel.

Arguments Ok {A} a.
Arguments Raise {A} e.
Arguments OutOfModel {A}.

Definition bind {A B} (c : result A) (k : A -> result B) : result B :=
  match c with
  | Ok a => k a
  | Raise e => Raise e
  | OutOfModel => OutOfModel
  end.

Notation "x <- c ;; k" := (bind c (fun x => k))
  (at level 61, c at next level, right associativity).

(** [bool(v)], the test of an [if v:]. *)
Definition truthy (v : pyval) : bool :=
  match v with
  | VNone => false
  | VBool b => b
  | VInt z => negb (z =? 0)%Z
  | VStr s => match s with [] => false | _ => true end
  | VList l => match l with [] => false | _ => true end
  | VDict d => match d with [] => false | _ => true end
  end.

Section Dict.
Variable V : Type.

(** [k in d] and [d[k]] on an insertion-ordered dict. *)
Fixpoint dict_lookup (k : pystr) (d : list (pystr * V)) : option V :=
  match d with
  | [] => None
  | (k', v) :: r => if PyStr.eqb k' k then Some v else dict_lookup k r
  end.

(** [d[k] = v]: an existing key keeps its place, a new key goes last. *)
Fixpoint dict_store (k : pystr) (v : V) (d : list (pystr * V))
  : list (pystr * V) :=
  match d with
  | [] => [(k, v)]
  | (k', v') :: r =>
      if PyStr.eqb k' k then (k', v) :: r else (k', v') :: dict_store k v r
  end.
End Dict.

(** [v.get(k, default)]: only a dict has the method. *)
Definition get_default (v : pyval) (k : pystr) (default : pyval)
  : result pyval :=
  match v with
  | VDict d =>
      Ok (match dict_lookup k d with Some w => w | None => default end)
  | _ => Raise AttributeError
  end.

(** [v[k]] with a string key. *)
Definition subscript (v : pyval) (k : pystr) : result pyval :=
  match v with
  | VDict d =>
      match dict_lookup k d with Some w => Ok w | None => Raise KeyError end
  | _ => Raise TypeError
  end.

(** The one-character strings of a string. *)
Definition chars (s : pystr) : list pyval := List.map (fun c => VStr [c]) s.

(** The elements a [for] loop (or [list.extend]) draws from [v]. *)
Definition iterate (v : pyval) : result (list pyval) :=
  match v with
  | VList l => Ok l
  | VDict d => Ok (List.map (fun kv => VStr (fst kv)) d)
  | VStr s => Ok (chars s)
  | _ => Raise TypeError
  end.

(** [v.lower()]: only a [str] has the method. *)
Definition lower_method (v : pyval) : result pystr :=
  match v with
  | VStr s => Ok (PyStr.lower s)
  | _ => Raise AttributeError
  end.

(** The replacement field [{v}] of an f-string. *)
Definition format_field (v : pyval) : result pystr :=
  match v with
  | VStr s => Ok s
  | _ => OutOfModel
  end.

(** [cur += s] for a string [s]: concatenation on a [str], extension by
    the characters on a [list], [TypeError] on anything else. *)
Definition iadd_str (cur : pyval) (s : pystr) : result pyval :=
  match cur with
  | VStr a => Ok (VStr (a ++ s))
  | VList l => Ok (VList (l ++ chars s))
  | _ => Raise TypeError
  end.

(** A [for] loop whose body may raise. *)
Fixpoint for_each {S : Type} (body : S -> pyval -> result S) (st : S)
    (items : list pyval) : result S :=
  match items with
  | [] => Ok st
  | item :: rest => st' <- body st item ;; for_each body st' rest
  end.

(* ================================================================== *)
(** * [aggregate_ingredients] *)
(* ================================================================== *)

(** The text put between two quantities of one key. *)
Definition separator : pystr := lit " + ".

(** The body of the two loops (lines 133-138 and 141-145): the key is the
    lower-cased item; a key already in the dict has [" + "] and the
    quantity appended to its value, a new key is stored with the quantity
    as it is. *)
Definition merge_item (aggregated : list (pystr * pyval)) (item : pyval)
  : result (list (pystr * pyval)) :=
  raw <- subscript item (lit "item") ;;
  name <- lower_method raw ;;
  match dict_lookup name aggregated with
  | Some cur =>
      q <- subscript item (lit "quantity") ;;
      text <- format_field q ;;
      v <- iadd_str cur (separator ++ text) ;;
      Ok (dict_store name v aggregated)
  | None =>
      q <- subscript item (lit "quantity") ;;
      Ok (dict_store name q aggregated)
  end.

(** [[{"item": k.title(), "quantity": v} for k, v in aggregated.items()]] *)
Definition final_list (aggregated : list (pystr * pyval)) : pyval :=
  VList (List.map (fun kv =>
           VDict [(lit "item", VStr (PyStr.title (fst kv)));
                  (lit "quantity", snd kv)]) aggregated).

(** One of the two loops, over [categorized_ingredients.get(key, [])]. *)
Definition aggregate_bucket (categorized_ingredients : pyval) (key : pystr)
  : result (list (pystr * pyval)) :=
  bucket <- get_default categorized_ingredients key (VList []) ;;
  items <- iterate bucket ;;
  for_each merge_item [] items.

Definition aggregate_ingredients (categorized_ingredients : pyval)
  : result pyval :=
  aggregated_pantry <- aggregate_bucket categorized_ingredients (lit "pantry") ;;
  aggregated_perishables <-
    aggregate_bucket categorized_ingredients (lit "perishables") ;;
  Ok (VDict [(lit "pantry", final_list aggregated_pantry);
             (lit "perishables", final_list aggregated_perishables)]).

(* ================================================================== *)
(** * The data model of the pipeline *)
(* ================================================================== *)

(** IngredientEntry and CategorizedSet, and the Python values that carry
    them.  [entry_value] and [set_value] build the dicts exactly as the
    last lines of [aggregate_ingredients] do. *)
Record IngredientEntry : Type := { item : pystr; quantity : pystr }.

Record CategorizedSet : Type :=
  { pantry : list IngredientEntry; perishables : list IngredientEntry }.

Definition entry_value (e : IngredientEntry) : pyval :=
  VDict [(lit "item", VStr (item e)); (lit "quantity", VStr (quantity e))].

Definition bucket_value (es : list IngredientEntry) : pyval :=
  VList (List.map entry_value es).

Definition set_value (cs : CategorizedSet) : pyval :=
  VDict [(lit "pantry", bucket_value (pantry cs));
         (lit "perishables", bucket_value (perishables cs))].

(** Reading a Python value as an entry: a dict that carries a string under
    ["item"] and a string under ["quantity"] (other keys are allowed). *)
Definition as_entry (v : pyval) : option IngredientEntry :=
  match v with
  | VDict d =>
      match dict_lookup (lit "item") d, dict_lookup (lit "quantity") d with
      | Some (VStr i), Some (VStr q) => Some {| item := i; quantity := q |}
      | _, _ => None
      end
  | _ => None
  end.

Fixpoint as_entries (l : list pyval) : option (list IngredientEntry) :=
  match l with
  | [] => Some []
  | v :: r =>
      match as_entry v, as_entries r with
      | Some e, Some es => Some (e :: es)
      | _, _ => None
      end
  end.

Definition as_bucket (v : pyval) : option (list IngredientEntry) :=
  match v with
  | VList l => as_entries l
  | _ => None
  end.

(** A CategorizedSet: a dict with both buckets, each a list of entries. *)
Definition as_categorized_set (v : pyval) : option CategorizedSet :=
  match v with
  | VDict d =>
      match dict_lookup (lit "pantry") d, dict_lookup (lit "perishables") d with
      | Some p, Some q =>
          match as_bucket p, as_bucket q with
          | Some ps, Some qs => Some {| pantry := ps; perishables := qs |}
          | _, _ => None
          end
      | _, _ => None
      end
  | _ => None
  end.

(** The bucket under [key] of a dict that may lack it: a missing key reads
    as the empty bucket, as [.get(key, [])] does. *)
Definition bucket_or_empty (d : list (pystr * pyval)) (key : pystr)
  : option (list IngredientEntry) :=
  match dict_lookup key d with
  | Some b => as_bucket b
  | None => Some []
  end.

(* ================================================================== *)
(** * The Aggregator as the specification words it (section 4.3) *)
(* ================================================================== *)

(** Step 1: the merge key of an entry is its lower-cased item. *)
Definition merge_key (e : IngredientEntry) : pystr := PyStr.lower (item e).

(** The distinct keys of a sequence, each at its first occurrence. *)
Fixpoint first_occurrences (ks : list pystr) : list pystr :=
  match ks with
  | [] => []
  | k :: r =>
      k :: List.filter (fun x => negb (PyStr.eqb x k)) (first_occurrences r)
  end.

(** [sep.join(l)]. *)
Fixpoint join (sep : pystr) (l : list pystr) : pystr :=
  match l with
  | [] => []
  | [x] => x
  | x :: r => x ++ sep ++ join sep r
  end.

(** Steps 2 and 3: the quantity strings recorded under a key, in arrival
    order. *)
Definition quantities_of (k : pystr) (es : list IngredientEntry)
  : list pystr :=
  List.map quantity (List.filter (fun e => PyStr.eqb (merge_key e) k) es).

(** Step 4: the entry emitted for a key. *)
Definition merged_entry (es : list IngredientEntry) (k : pystr)
  : IngredientEntry :=
  {| item := PyStr.title k; quantity := join separator (quantities_of k es) |}.

Definition merged_bucket (es : list IngredientEntry) : list IngredientEntry :=
  List.map (merged_entry es) (first_occurrences (List.map merge_key es)).

Definition merged_set (cs : CategorizedSet) : CategorizedSet :=
  {| pantry := merged_bucket (pantry cs);
     perishables := merged_bucket (perishables cs) |}.

(** Where a key first occurs in a sequence of keys. *)
Fixpoint first_index (k : pystr) (ks : list pystr) : nat :=
  match ks with
  | [] => 0
  | a :: r => if PyStr.eqb a k then 0 else S (first_index k r)
  end.

(** [out] lists the distinct keys of [keys], each once, ordered by where
    each first occurs in [keys]. *)
Definition in_first_occurrence_order (keys out : list pystr) : Prop :=
  NoDup out
  /\ (forall k, In k out <-> In k keys)
  /\ StronglySorted lt (List.map (fun k => first_index k keys) out).

(** The entries [e1] and [e2] of the bucket [es] went into one entry of
    [out]: [out] has one entry per key, the key of [e1] is the key of
    exactly one of them, and the quantities joined under that key hold the
    quantity of [e1] and, later, the quantity of [e2]. *)
Definition merged_into_one (es out : list IngredientEntry)
    (e1 e2 : IngredientEntry) : Prop :=
  exists ks1 ks2 a b c,
    out = List.map (merged_entry es) (ks1 ++ merge_key e1 :: ks2)
    /\ ~ In (merge_key e1) (ks1 ++ ks2)
    /\ quantities_of (merge_key e1) es
       = a ++ quantity e1 :: b ++ quantity e2 :: c.

(** Items equal under case-insensitive comparison appear once. *)
Definition case_insensitively_unique (es : list IngredientEntry) : Prop :=
  NoDup (List.map (fun e => PyStr.lower (item e)) es).

(** An AggregatedSet: within each bucket every item is unique under
    case-insensitive comparison. *)
Definition aggregated_set (out : CategorizedSet) : Prop :=
  case_insensitively_unique (pantry out)
  /\ case_insensitively_unique (perishables out).

Definition ascii_bucket (es : list IngredientEntry) : bool :=
  forallb (fun e => PyStr.is_ascii (item e)) es.

Definition ascii_set (cs : CategorizedSet) : bool :=
  ascii_bucket (pantry cs) && ascii_bucket (perishables cs).

(* ================================================================== *)
(** * The "Generate Grocery List" handler (lines 199-279) *)
(* ================================================================== *)

(** One record of [st.session_state.dishes]. *)
Record DishRequest : Type := { name : pystr; servings : Z }.

(** What the generation capability answers during one run.  The handler
    calls it at most once per valid dish for a recipe, at most once per
    valid dish for the extraction, and at most once for the
    categorization; [call_gemini_api] hands back the text, the decoded JSON
    value, or [None] after a transport or decoding error.  These are the
    replies of calls that return: a call that raises is no reply. *)
Record world : Type :=
  { recipe_reply : nat -> pyval;
    extract_reply : nat -> pyval;
    categorize_reply : pyval }.

(** What the handler shows while it runs. *)
Inductive event : Type :=
| InfoRecipeFound (dish_name : pystr)
| WarnNoIngredients (dish_name : pystr)
| WarnNoRecipe (dish_name : pystr).

(** How the handler ends: the warning of line 207, the error of line 276,
    the error of line 274, or the list of lines 247-271. *)
Inductive terminal : Type :=
| EmptyInput
| NoIngredientsExtracted
| CategorizationFailure
| Done (final_grocery_list : pyval).

Record run_state : Type :=
  { total_ingredients_extracted : list pyval; shown : list event }.

Definition show (ev : event) (st : run_state) : run_state :=
  {| total_ingredients_extracted := total_ingredients_extracted st;
     shown := shown st ++ [ev] |}.

(** [total_ingredients_extracted.extend(v)]. *)
Definition extend (st : run_state) (v : pyval) : result run_state :=
  items <- iterate v ;;
  Ok {| total_ingredients_extracted := total_ingredients_extracted st ++ items;
        shown := shown st |}.

(** The body of the loop over [valid_dishes] (lines 213-239). *)
Definition process_dish (w : world) (i : nat) (dish_entry : DishRequest)
    (st : run_state) : result run_state :=
  let dish_name := PyStr.strip (name dish_entry) in
  let recipe_content := recipe_reply w i in
  if truthy recipe_content then
    let st := show (InfoRecipeFound dish_name) st in
    let ingredients_for_dish := extract_reply w i in
    if truthy ingredients_for_dish then extend st ingredients_for_dish
    else Ok (show (WarnNoIngredients dish_name) st)
  else Ok (show (WarnNoRecipe dish_name) st).

Fixpoint dish_loop (w : world) (i : nat) (valid_dishes : list DishRequest)
    (st : run_state) : result run_state :=
  match valid_dishes with
  | [] => Ok st
  | dish_entry :: rest =>
      st' <- process_dish w i dish_entry st ;; dish_loop w (S i) rest st'
  end.

(** [categorize_and_normalize_ingredients]: the prompt reads ["item"] and
    ["quantity"] of every accumulated element (line 106) before the call. *)
Definition categorize_and_normalize_ingredients (w : world)
    (ingredient_list_json : list pyval) : result pyval :=
  _ <- for_each (fun (_ : unit) it =>
                   _ <- subscript it (lit "item") ;;
                   _ <- subscript it (lit "quantity") ;; Ok tt)
                tt ingredient_list_json ;;
  Ok (categorize_reply w).

(** Lines 243-276. *)
Definition finish (w : world) (st : run_state)
  : result (list event * terminal) :=
  match total_ingredients_extracted st with
  | [] => Ok (shown st, NoIngredientsExtracted)
  | _ =>
      categorized_and_normalized <-
        categorize_and_normalize_ingredients w (total_ingredients_extracted st) ;;
      if truthy categorized_and_normalized then
        final_grocery_list <- aggregate_ingredients categorized_and_normalized ;;
        Ok (shown st, Done final_grocery_list)
      else Ok (shown st, CategorizationFailure)
  end.

Definition valid_dishes (dishes : list DishRequest) : list DishRequest :=
  List.filter (fun d => truthy (VStr (PyStr.strip (name d)))) dishes.

Definition start : run_state :=
  {| total_ingredients_extracted := []; shown := [] |}.

Definition generate_grocery_list (w : world) (dishes : list DishRequest)
  : result (list event * terminal) :=
  match valid_dishes dishes with
  | [] => Ok ([], EmptyInput)
  | valid => st <- dish_loop w 0 valid start ;; finish w st
  end.

(* ================================================================== *)
(** * Definitions the proofs go through *)
(* ================================================================== *)

(** [k] occurs in [ks]. *)
Definition seen (k : pystr) (ks : list pystr) : bool :=
  existsb (PyStr.eqb k) ks.

(** The dict that maps each key of [ks], in order, to [f] of it. *)
Definition keyed (V : Type) (f : pystr -> V) (ks : list pystr)
  : list (pystr * V) :=
  List.map (fun k => (k, f k)) ks.

(** The dict the loop holds once the entries [es] have gone through it. *)
Definition aggregated_after (es : list IngredientEntry)
  : list (pystr * pyval) :=
  keyed (fun k => VStr (join separator (quantities_of k es)))
        (first_occurrences (List.map merge_key es)).

(** A bucket on which lower-casing the display form of a merge key gives
    the key back.  Python's case mappings do not do so on every string. *)
Definition display_keeps_key (es : list IngredientEntry) : Prop :=
  forall e, In e es ->
    PyStr.lower (PyStr.title (merge_key e)) = merge_key e.

(** The shape [extract_ingredients] asks for (lines 52-62): an array of
    objects that carry ["item"] and ["quantity"]; [None] is the failure
    [call_gemini_api] reports. *)
Definition has_entry_keys (v : pyval) : bool :=
  match subscript v (lit "item"), subscript v (lit "quantity") with
  | Ok _, Ok _ => true
  | _, _ => false
  end.

Definition extraction_shaped (v : pyval) : bool :=
  match v with
  | VNone => true
  | VList l => forallb has_entry_keys l
  | _ => false
  end.

(** What the handler can take from an extraction: a falsy reply, which it
    tests for (line 234: [None], an empty array, an empty object, ...),
    or an array of objects that carry ["item"] and ["quantity"]. *)
Definition extraction_usable (v : pyval) : bool :=
  negb (truthy v)
  || match v with
     | VList l => forallb has_entry_keys l
     | _ => false
     end.

(** The entries the [i]-th valid dish adds to the accumulator. *)
Definition contribution (w : world) (i : nat) : list pyval :=
  if truthy (recipe_reply w i)
  then match extract_reply w i with VList l => l | _ => [] end
  else [].

(** What the handler shows for the [i]-th valid dish. *)
Definition dish_events (w : world) (i : nat) (d : DishRequest) : list event :=
  let dish_name := PyStr.strip (name d) in
  if truthy (recipe_reply w i)
  then InfoRecipeFound dish_name
         :: (if truthy (extract_reply w i) then []
             else [WarnNoIngredients dish_name])
  else [WarnNoRecipe dish_name].

Fixpoint events_from (w : world) (i : nat) (ds : list DishRequest)
  : list event :=
  match ds with
  | [] => []
  | d :: rest => dish_events w i d ++ events_from w (S i) rest
  end.

(** The warning shown for a dish that failed. *)
Definition failure_warning (w : world) (i : nat) (d : DishRequest) : event :=
  if truthy (recipe_reply w i) then WarnNoIngredients (PyStr.strip (name d))
  else WarnNoRecipe (PyStr.strip (name d)).

Definition dish_failed (w : world) (i : nat) : bool :=
  negb (truthy (recipe_reply w i) && truthy (extract_reply w i)).

(* ================================================================== *)
(** * Sample inputs *)
(* ================================================================== *)

Definition entry (i q : string) : IngredientEntry :=
  {| item := lit i; quantity := lit q |}.

(** The two entries of the merge-key example of the specification. *)
Definition salt_twice : list IngredientEntry :=
  [entry "Salt" "1 tsp"; entry "salt" "2 tsp"].

(** The categorized set of the end-to-end scenario of the specification. *)
Definition scenario_set : CategorizedSet :=
  {| pantry := [entry "flour" "1 cup"];
     perishables := [entry "egg" "2"; entry "egg" "3"; entry "milk" "1 cup"] |}.

(** A pantry with the one-letter name U+00DF (sharp s) and the name "ss". *)
Definition sharp_s_set : CategorizedSet :=
  {| pantry := [ {| item := [0xDF%N]; quantity := lit "1" |}; entry "ss" "2" ];
     perishables := [] |}.

(** A pantry with "salt" and the same name in another case, padded with
    blanks. *)
Definition padded_salt_set : CategorizedSet :=
  {| pantry := [entry "salt" "1"; entry " Salt " "2"]; perishables := [] |}.

(** A categorizer payload without the perishables bucket. *)
Definition pantry_only : pyval :=
  VDict [(lit "pantry", bucket_value [entry "salt" "1 tsp"])].

(* ================================================================== *)
(** * Sample runs *)
(* ================================================================== *)

Definition soup : DishRequest := {| name := lit "Soup"; servings := 2 |}.
Definition cake : DishRequest := {| name := lit " Cake "; servings := 4 |}.
Definition blank : DishRequest := {| name := lit "  "; servings := 1 |}.

(** Every call of the capability fails. *)
Definition silent_world : world :=
  {| recipe_reply := fun _ => VNone;
     extract_reply := fun _ => VNone;
     categorize_reply := VNone |}.

(** No recipe is found for the first valid dish; the second gives the
    ingredients that the categorizer sorts into [scenario_set]. *)
Definition scenario_world : world :=
  {| recipe_reply := fun i =>
       match i with 0 => VNone | _ => VStr (lit "Beat the eggs.") end;
     extract_reply := fun _ =>
       bucket_value [entry "egg" "2"; entry "flour" "1 cup";
                     entry "egg" "3"; entry "milk" "1 cup"];
     categorize_reply := set_value scenario_set |}.

(** The first extraction gives an empty object, the second an array of
    entries. *)
Definition empty_object_world : world :=
  {| recipe_reply := fun _ => VStr (lit "Beat the eggs.");
     extract_reply := fun i =>
       match i with
       | 0 => VDict []
       | _ => bucket_value [entry "egg" "2"; entry "flour" "1 cup";
                            entry "egg" "3"; entry "milk" "1 cup"]
       end;
     categorize_reply := set_value scenario_set |}.

(** The first extraction gives an array of entries, the second an object
    that reports an error. *)
Definition error_object_world : world :=
  {| recipe_reply := fun _ => VStr (lit "Add salt.");
     extract_reply := fun i =>
       match i with
       | 0 => bucket_value [entry "salt" "1 tsp"]
       | _ => VDict [(lit "error", VStr (lit "quota exceeded"))]
       end;
     categorize_reply := set_value scenario_set |}.

(** The categorizer answers with [pantry_only]. *)
Definition pantry_only_world : world :=
  {| recipe_reply := fun _ => VStr (lit "Add salt.");
     extract_reply := fun _ => bucket_value [entry "salt" "1 tsp"];
     categorize_reply := pantry_only |}.

(* ================================================================== *)
(** * The dish list of the session (lines 158-166) *)
(* ================================================================== *)

(** The record [{'name': '', 'servings': 1}]. *)
Definition empty_dish : DishRequest := {| name := []; servings := 1 |}.

(** [st.session_state.dishes] as line 159 sets it up. *)
Definition initial_dishes : list DishRequest := [empty_dish].

(** [add_dish]: one more empty record at the end. *)
Definition add_dish (dishes : list DishRequest) : list DishRequest :=
  dishes ++ [empty_dish].

(** The list without its [n]-th element. *)
Fixpoint remove_nth (A : Type) (n : nat) (l : list A) : list A :=
  match l, n with
  | [], _ => []
  | _ :: r, O => r
  | a :: r, S m => a :: remove_nth m r
  end.

(** [l.pop(index)] as far as the list goes: a negative index counts from
    the end; [None] stands for a pop that raises and removes nothing
    ([IndexError] for an index outside the list, [OverflowError] for one
    that does not fit a machine word). *)
Definition list_pop (A : Type) (index : Z) (l : list A) : option (list A) :=
  let len := Z.of_nat (List.length l) in
  let i := if (index <? 0)%Z then (index + len)%Z else index in
  if ((0 <=? i) && (i <? len))%Z then Some (remove_nth (Z.to_nat i) l)
  else None.

(** [remove_dish]: the pop is guarded by [len(dishes) > 1]. *)
Definition remove_dish (index : Z) (dishes : list DishRequest)
  : option (list DishRequest) :=
  if 1 <? List.length dishes then list_pop index dishes else Some dishes.

(** The two buttons, and a sequence of clicks. *)
Inductive dish_click : Type :=
| ClickAdd
| ClickRemove (index : Z).

Definition click (c : dish_click) (dishes : list DishRequest)
  : option (list DishRequest) :=
  match c with
  | ClickAdd => Some (add_dish dishes)
  | ClickRemove index => remove_dish index dishes
  end.

Fixpoint clicks (cs : list dish_click) (dishes : list DishRequest)
  : option (list DishRequest) :=
  match cs with
  | [] => Some dishes
  | c :: rest =>
      match click c dishes with
      | Some dishes' => clicks rest dishes'
      | None => None
      end
  end.

(* ================================================================== *)
(** * Reading the handler's result *)
(* ================================================================== *)

(** How a run ended, without what it showed on the way. *)
Definition terminal_of (r : result (list event * terminal))
  : result terminal :=
  shown_and_end <- r ;; Ok (snd shown_and_end).

(** A name [strip()] leaves nothing of. *)
Definition blank_name (d : DishRequest) : bool :=
  forallb PyStr.is_space (name d).

(* ================================================================== *)
(** * Reading the loop of [aggregate_ingredients] on any list *)
(* ================================================================== *)

(** What the body of the loop reads of an item before it touches the dict:
    [item['item']], its [lower()], and [item['quantity']], in this order. *)
Definition read_entry (it : pyval) : result pyval :=
  raw <- subscript it (lit "item") ;;
  _ <- lower_method raw ;;
  subscript it (lit "quantity").

(** An entry whose quantity is any value: the dict
    [{"item": i, "quantity": q}]. *)
Definition row_value (r : pystr * pyval) : pyval :=
  VDict [(lit "item", VStr (fst r)); (lit "quantity", snd r)].

(** The entry with its name in display form and its quantity as it is. *)
Definition displayed_row (r : pystr * pyval) : pyval :=
  row_value (PyStr.title (PyStr.lower (fst r)), snd r).

(* ================================================================== *)
(** * Showing the grocery list (lines 249-271) *)
(* ================================================================== *)

(** What the handler puts on the page for a list: the fixed headings and
    messages by name, the lines and the copy block with their text. *)
Inductive display : Type :=
| ListTitle                      (* st.subheader, line 249 *)
| PantryHeading                  (* st.markdown, line 252 *)
| PerishablesHeading             (* st.markdown, line 260 *)
| Written (text : pystr)         (* st.write, lines 255 and 263 *)
| NoPantryItems                  (* st.info, line 258 *)
| NoPerishables                  (* st.info, line 266 *)
| Rule                           (* st.markdown, line 268 *)
| CopyTitle                      (* st.subheader, line 269 *)
| CopyHint                       (* st.info, line 270 *)
| CodeBlock (text : pystr).      (* st.code, line 271 *)

Record page : Type :=
  { displayed : list display; grocery_list_text : pystr }.

Definition put (d : display) (p : page) : page :=
  {| displayed := displayed p ++ [d];
     grocery_list_text := grocery_list_text p |}.

(** The f-string [f"- **{item['item']}**: {item['quantity']}"]. *)
Definition written_line (it : pyval) : result pystr :=
  i <- subscript it (lit "item") ;;
  i_text <- format_field i ;;
  q <- subscript it (lit "quantity") ;;
  q_text <- format_field q ;;
  Ok (lit "- **" ++ i_text ++ lit "**: " ++ q_text).

(** The f-string [f"- {item['item']}: {item['quantity']}\n"]. *)
Definition copied_line (it : pyval) : result pystr :=
  i <- subscript it (lit "item") ;;
  i_text <- format_field i ;;
  q <- subscript it (lit "quantity") ;;
  q_text <- format_field q ;;
  Ok (lit "- " ++ i_text ++ lit ": " ++ q_text ++ [10%N]).

(** The body of the loops of lines 254-256 and 262-264. *)
Definition show_item (p : page) (it : pyval) : result page :=
  w <- written_line it ;;
  c <- copied_line it ;;
  Ok {| displayed := displayed p ++ [Written w];
        grocery_list_text := grocery_list_text p ++ c |}.

(** One bucket: its lines if [final_grocery_list.get(key)] is truthy, the
    message [none] otherwise. *)
Definition show_bucket (final_grocery_list : pyval) (key : pystr)
    (none : display) (p : page) : result page :=
  bucket <- get_default final_grocery_list key VNone ;;
  if truthy bucket then
    b <- subscript final_grocery_list key ;;
    items <- iterate b ;;
    for_each show_item p items
  else Ok (put none p).

Definition show_grocery_list (final_grocery_list : pyval)
  : result (list display) :=
  let p := {| displayed := [ListTitle; PantryHeading];
              grocery_list_text := [] |} in
  p <- show_bucket final_grocery_list (lit "pantry") NoPantryItems p ;;
  p <- show_bucket final_grocery_list (lit "perishables") NoPerishables
         (put PerishablesHeading p) ;;
  Ok (displayed p
        ++ [Rule; CopyTitle; CopyHint; CodeBlock (grocery_list_text p)]).

(** The two texts of an entry, and the lines of a bucket on the page. *)
Definition entry_written (e : IngredientEntry) : pystr :=
  lit "- **" ++ item e ++ lit "**: " ++ quantity e.

Definition entry_copied (e : IngredientEntry) : pystr :=
  lit "- " ++ item e ++ lit ": " ++ quantity e ++ [10%N].

Definition bucket_lines (none : display) (es : list IngredientEntry)
  : list display :=
  match es with
  | [] => [none]
  | _ => List.map (fun e => Written (entry_written e)) es
  end.

(* ================================================================== *)
(** * [call_gemini_api] (lines 12-45) *)
(* ================================================================== *)

(** The exceptions of the reading of a response: those of [pyexc], the
    [IndexError] of [x[0]] on an empty list or string, and the two that
    [json.loads] raises on a string beside [JSONDecodeError]. *)
Inductive exn : Type :=
| Exc (e : pyexc)
| IndexError
| ValueError
| RecursionError.

Inductive outcome (A : Type) : Type :=
| Returned (a : A)
| Raised (e : exn).

Arguments Returned {A} a.
Arguments Raised {A} e.

Definition and_then {A B} (c : outcome A) (k : A -> outcome B) : outcome B :=
  match c with
  | Returned a => k a
  | Raised e => Raised e
  end.

Notation "x <~ c ;; k" := (and_then c (fun x => k))
  (at level 61, c at next level, right associativity).

(** [d.get(k)] on a dict: the value, [None] for a missing key. *)
Definition lookup_or_none (k : pystr) (d : list (pystr * pyval)) : pyval :=
  match dict_lookup k d with
  | Some w => w
  | None => VNone
  end.

(** [v.get(k)]: only a dict has the method. *)
Definition get_or_none (v : pyval) (k : pystr) : outcome pyval :=
  match v with
  | VDict d => Returned (lookup_or_none k d)
  | _ => Raised (Exc AttributeError)
  end.

(** [v[k]] with a string key. *)
Definition at_key (v : pyval) (k : pystr) : outcome pyval :=
  match v with
  | VDict d =>
      match dict_lookup k d with
      | Some w => Returned w
      | None => Raised (Exc KeyError)
      end
  | _ => Raised (Exc TypeError)
  end.

(** [v[0]]: the first element of a list, the first character of a string;
    a dict decoded from JSON has no key [0]. *)
Definition at_zero (v : pyval) : outcome pyval :=
  match v with
  | VList (a :: _) => Returned a
  | VStr (c :: _) => Returned (VStr [c])
  | VList [] | VStr [] => Raised IndexError
  | VDict _ => Raised (Exc KeyError)
  | _ => Raised (Exc TypeError)
  end.

(** What [requests] gave: a [RequestException] ([post] or
    [raise_for_status] failed, or the body was not JSON), or the decoded
    body [response.json()]. *)
Inductive transport : Type :=
| RequestFailed
| Responded (result : pyval).

(** The three [st.error] messages, of lines 41, 44 and 38. *)
Inductive api_error : Type :=
| CallFailed
| DecodeFailed
| UnexpectedStructure.

(** [result["candidates"][0]] and [result["candidates"][0]["content"]]. *)
Definition first_candidate (result : pyval) : outcome pyval :=
  candidates <~ at_key result (lit "candidates") ;; at_zero candidates.

Definition first_content (result : pyval) : outcome pyval :=
  candidate <~ first_candidate result ;; at_key candidate (lit "content").

(** The condition of line 32, a chain of [and]. *)
Definition has_parts (result : pyval) : outcome bool :=
  candidates <~ get_or_none result (lit "candidates") ;;
  if truthy candidates then
    candidate <~ first_candidate result ;;
    content <~ get_or_none candidate (lit "content") ;;
    if truthy content then
      content' <~ first_content result ;;
      parts <~ get_or_none content' (lit "parts") ;;
      Returned (truthy parts)
    else Returned false
  else Returned false.

(** What [json.loads] does on a string: it returns the decoded value (one
    of [pyval], whose numbers are integers), it
    raises [JSONDecodeError] ([NotJson]), or it raises something else
    ([ValueError] on an integer of too many digits, [RecursionError] on
    too deep a nesting). *)
Inductive loaded : Type :=
| Decoded (v : pyval)
| NotJson
| LoadsRaised (e : exn).

Section Api.

(** [json.loads] on a string. *)
Variable json_loads : pystr -> loaded.

(** [json.loads(text_response)] inside the [try]: anything but a string is
    a [TypeError]; a [JSONDecodeError] is caught (line 43), shown and
    turned into [None]; no [except] catches the [TypeError] or another
    exception of [json.loads]. *)
Definition decode (text_response : pyval)
  : outcome (pyval * option api_error) :=
  match text_response with
  | VStr s =>
      match json_loads s with
      | Decoded v => Returned (v, None)
      | NotJson => Returned (VNone, Some DecodeFailed)
      | LoadsRaised e => Raised e
      end
  | _ => Raised (Exc TypeError)
  end.

(** [call_gemini_api(prompt, schema)]: what it returns and the error it
    shows, if any; [schema] says whether a schema was given. *)
Definition call_gemini_api (schema : bool) (t : transport)
  : outcome (pyval * option api_error) :=
  match t with
  | RequestFailed => Returned (VNone, Some CallFailed)
  | Responded result =>
      ok <~ has_parts result ;;
      if ok then
        content <~ first_content result ;;
        parts <~ at_key content (lit "parts") ;;
        part <~ at_zero parts ;;
        text_response <~ get_or_none part (lit "text") ;;
        if schema then decode text_response
        else Returned (text_response, None)
      else Returned (VNone, Some UnexpectedStructure)
  end.

End Api.

(** An integer text of 5000 digits. *)
Definition long_integer : pystr := List.repeat 49%N 5000.

(** A decoder for the examples, which agrees with [json.loads] on their
    texts: the empty array, an integer of 5000 digits, and a text that is
    not JSON. *)
Definition sample_loads (s : pystr) : loaded :=
  if PyStr.eqb s (lit "[]") then Decoded (VList [])
  else if PyStr.eqb s long_integer then LoadsRaised ValueError
  else NotJson.

(** A response of the shape the API documents, with the candidates [cs]
    after the first and the parts [ps] after the first. *)
Definition response (part : list (pystr * pyval)) (ps cs : list pyval)
  : pyval :=
  VDict [(lit "candidates",
          VList (VDict [(lit "content",
                         VDict [(lit "parts", VList (VDict part :: ps))])]
                 :: cs))].

(* ================================================================== *)
(** * Strings: equality and the ASCII case mappings *)
(* ================================================================== *)

Lemma pystr_eqb_eq (a b : pystr) : PyStr.eqb a b = true <-> a = b.
Proof.
  revert b; induction a as [|x a IH]; intros [|y b]; simpl;
    try (split; [discriminate | congruence]); try tauto.
  rewrite andb_true_iff, N.eqb_eq, IH. split.
  - intros [-> ->]; reflexivity.
  - intros H; injection H; auto.
Qed.

Lemma pystr_eqb_refl (a : pystr) : PyStr.eqb a a = true.
Proof. apply pystr_eqb_eq; reflexivity. Qed.

Lemma pystr_eqb_neq (a b : pystr) : PyStr.eqb a b = false <-> a <> b.
Proof.
  rewrite <- pystr_eqb_eq. destruct (PyStr.eqb a b); split; congruence.
Qed.

Lemma pystr_eqb_sym (a b : pystr) : PyStr.eqb a b = PyStr.eqb b a.
Proof.
  destruct (PyStr.eqb b a) eqn:E.
  - apply pystr_eqb_eq in E; subst; apply pystr_eqb_refl.
  - apply pystr_eqb_neq in E. apply pystr_eqb_neq; congruence.
Qed.

Lemma pystr_eq_dec (a b : pystr) : {a = b} + {a <> b}.
Proof.
  destruct (PyStr.eqb a b) eqn:E; [left | right].
  - apply pystr_eqb_eq; exact E.
  - apply pystr_eqb_neq; exact E.
Qed.

(** A boolean property checked on the 128 ASCII code points holds of each. *)
Lemma ascii_code_points (P : N -> bool) :
  forallb P (List.map N.of_nat (seq 0 128)) = true ->
  forall c, (c < 128)%N -> P c = true.
Proof.
  intros H c Hc. rewrite forallb_forall in H. apply H.
  apply in_map_iff. exists (N.to_nat c). split.
  - apply N2Nat.id.
  - apply in_seq. lia.
Qed.

Lemma lower_cp_ascii (c : N) :
  (c < 128)%N ->
  PyStr.lower (PyStr.title_cp c) = [PyStr.lower_cp c]
  /\ PyStr.lower_cp (PyStr.lower_cp c) = PyStr.lower_cp c
  /\ (PyStr.lower_cp c < 128)%N.
Proof.
  intros Hc.
  pose (P := fun c =>
    PyStr.eqb (PyStr.lower (PyStr.title_cp c)) [PyStr.lower_cp c]
    && (PyStr.lower_cp (PyStr.lower_cp c) =? PyStr.lower_cp c)%N
    && (PyStr.lower_cp c <? 128)%N).
  assert (HP : P c = true)
    by (apply ascii_code_points; [vm_compute; reflexivity | exact Hc]).
  unfold P in HP. rewrite !andb_true_iff in HP. destruct HP as [[H1 H2] H3].
  repeat split.
  - apply pystr_eqb_eq; exact H1.
  - apply N.eqb_eq; exact H2.
  - apply N.ltb_lt; exact H3.
Qed.

Lemma lower_ascii (s : pystr) :
  PyStr.is_ascii s = true -> PyStr.is_ascii (PyStr.lower s) = true.
Proof.
  induction s as [|c s IH]; simpl; [reflexivity|].
  rewrite !andb_true_iff. intros [Hc Hs]. split; [|auto].
  apply N.ltb_lt. apply lower_cp_ascii. apply N.ltb_lt; exact Hc.
Qed.

Lemma lower_lower_ascii (s : pystr) :
  PyStr.is_ascii s = true -> PyStr.lower (PyStr.lower s) = PyStr.lower s.
Proof.
  induction s as [|c s IH]; simpl; [reflexivity|].
  rewrite andb_true_iff. intros [Hc Hs]. apply N.ltb_lt in Hc.
  f_equal; [apply lower_cp_ascii; exact Hc | apply IH; exact Hs].
Qed.

Lemma lower_title_from_ascii (b : bool) (s : pystr) :
  PyStr.is_ascii s = true ->
  PyStr.lower (PyStr.title_from b s) = PyStr.lower s.
Proof.
  revert b; induction s as [|c s IH]; intros b; simpl; [reflexivity|].
  rewrite andb_true_iff. intros [Hc Hs]. apply N.ltb_lt in Hc.
  unfold PyStr.lower in *. rewrite map_app, IH by exact Hs.
  destruct (lower_cp_ascii Hc) as (Ht & Hl & _).
  destruct b; simpl.
  - rewrite Hl; reflexivity.
  - unfold PyStr.lower in Ht. rewrite Ht. reflexivity.
Qed.

(** On ASCII names, lower-casing the display form gives the merge key back. *)
Lemma lower_title_lower_ascii (s : pystr) :
  PyStr.is_ascii s = true ->
  PyStr.lower (PyStr.title (PyStr.lower s)) = PyStr.lower s.
Proof.
  intros H. unfold PyStr.title.
  rewrite lower_title_from_ascii by (apply lower_ascii; exact H).
  apply lower_lower_ascii; exact H.
Qed.

(* ================================================================== *)
(** * Insertion-ordered dicts built from a list of keys *)
(* ================================================================== *)

Section Keyed.
Variable V : Type.

Lemma lookup_keyed_in (f : pystr -> V) (ks : list pystr) (k : pystr) :
  In k ks -> dict_lookup k (keyed f ks) = Some (f k).
Proof.
  induction ks as [|k' ks IH]; simpl; [tauto|].
  intros H. destruct (PyStr.eqb k' k) eqn:E.
  - apply pystr_eqb_eq in E; subst; reflexivity.
  - apply pystr_eqb_neq in E. destruct H as [H|H]; [congruence | auto].
Qed.

Lemma lookup_keyed_notin (f : pystr -> V) (ks : list pystr) (k : pystr) :
  ~ In k ks -> dict_lookup k (keyed f ks) = None.
Proof.
  induction ks as [|k' ks IH]; simpl; [reflexivity|].
  intros H. destruct (PyStr.eqb k' k) eqn:E.
  - apply pystr_eqb_eq in E; subst. tauto.
  - apply IH; tauto.
Qed.

Lemma store_keyed_new (f : pystr -> V) (ks : list pystr) (k : pystr) (v : V) :
  ~ In k ks -> dict_store k v (keyed f ks) = keyed f ks ++ [(k, v)].
Proof.
  induction ks as [|k' ks IH]; simpl; [reflexivity|].
  intros H. destruct (PyStr.eqb k' k) eqn:E.
  - apply pystr_eqb_eq in E; subst. tauto.
  - rewrite IH by tauto. reflexivity.
Qed.

Lemma keyed_ext (f g : pystr -> V) (ks : list pystr) :
  (forall k, In k ks -> f k = g k) -> keyed f ks = keyed g ks.
Proof.
  intros H. apply map_ext_in. intros k Hk. rewrite H by exact Hk. reflexivity.
Qed.

Lemma store_keyed_old (f : pystr -> V) (ks : list pystr) (k : pystr) (v : V) :
  NoDup ks -> In k ks ->
  dict_store k v (keyed f ks)
  = keyed (fun k' => if PyStr.eqb k' k then v else f k') ks.
Proof.
  induction ks as [|k' ks IH]; simpl; [tauto|].
  intros Hnd H. inversion Hnd as [|? ? Hnotin Hnd']; subst.
  destruct (PyStr.eqb k' k) eqn:E.
  - apply pystr_eqb_eq in E; subst. f_equal.
    apply keyed_ext. intros k1 Hk1.
    destruct (PyStr.eqb k1 k) eqn:E1; [|reflexivity].
    apply pystr_eqb_eq in E1; subst; tauto.
  - apply pystr_eqb_neq in E. destruct H as [H|H]; [congruence|].
    rewrite IH by assumption. reflexivity.
Qed.
End Keyed.

(* ================================================================== *)
(** * First occurrences, joined quantities *)
(* ================================================================== *)

Lemma seen_In (k : pystr) (ks : list pystr) : seen k ks = true <-> In k ks.
Proof.
  unfold seen. rewrite existsb_exists. split.
  - intros (x & Hx & E). apply pystr_eqb_eq in E; subst; exact Hx.
  - intros H. exists k. split; [exact H | apply pystr_eqb_refl].
Qed.

Lemma seen_not_In (k : pystr) (ks : list pystr) :
  seen k ks = false <-> ~ In k ks.
Proof.
  rewrite <- seen_In. destruct (seen k ks); split; congruence.
Qed.

Lemma first_occurrences_In (ks : list pystr) (k : pystr) :
  In k (first_occurrences ks) <-> In k ks.
Proof.
  induction ks as [|a ks IH]; simpl; [tauto|].
  rewrite filter_In, IH, negb_true_iff, pystr_eqb_neq.
  destruct (pystr_eq_dec a k); [tauto|]. intuition congruence.
Qed.

Lemma first_occurrences_NoDup (ks : list pystr) : NoDup (first_occurrences ks).
Proof.
  induction ks as [|a ks IH]; simpl; constructor.
  - rewrite filter_In, negb_true_iff, pystr_eqb_neq. tauto.
  - apply NoDup_filter; exact IH.
Qed.

(** A key seen before changes nothing; a new key goes last. *)
Lemma first_occurrences_snoc (ks : list pystr) (k : pystr) :
  first_occurrences (ks ++ [k])
  = if seen k ks then first_occurrences ks else first_occurrences ks ++ [k].
Proof.
  induction ks as [|a ks IH]; simpl; [reflexivity|].
  rewrite IH. unfold seen in *; simpl.
  destruct (PyStr.eqb k a) eqn:E; simpl.
  - destruct (existsb (PyStr.eqb k) ks); [reflexivity|].
    rewrite filter_app; simpl. rewrite E; simpl. rewrite app_nil_r; reflexivity.
  - destruct (existsb (PyStr.eqb k) ks); [reflexivity|].
    rewrite filter_app; simpl. rewrite E; simpl. reflexivity.
Qed.

(** On keys that are already distinct nothing is dropped. *)
Lemma first_occurrences_distinct (ks : list pystr) :
  NoDup ks -> first_occurrences ks = ks.
Proof.
  induction ks as [|a ks IH]; simpl; [reflexivity|].
  intros H; inversion H as [|? ? Hnotin Hnd]; subst.
  rewrite IH by exact Hnd. f_equal.
  apply forallb_filter_id. apply forallb_forall. intros x Hx.
  apply negb_true_iff, pystr_eqb_neq. congruence.
Qed.

Lemma join_snoc (sep : pystr) (l : list pystr) (x : pystr) :
  l <> [] -> join sep (l ++ [x]) = join sep l ++ sep ++ x.
Proof.
  induction l as [|a l IH]; [congruence|]. intros _.
  destruct l as [|b l]; simpl; [reflexivity|].
  simpl in IH. rewrite IH by discriminate.
  rewrite <- !app_assoc. reflexivity.
Qed.

Lemma quantities_of_snoc (k : pystr) (es : list IngredientEntry)
    (e : IngredientEntry) :
  quantities_of k (es ++ [e])
  = quantities_of k es
    ++ (if PyStr.eqb (merge_key e) k then [quantity e] else []).
Proof.
  unfold quantities_of. rewrite filter_app, map_app. simpl.
  destruct (PyStr.eqb (merge_key e) k); reflexivity.
Qed.

Lemma quantities_of_seen (k : pystr) (es : list IngredientEntry) :
  In k (List.map merge_key es) -> quantities_of k es <> [].
Proof.
  unfold quantities_of. induction es as [|e es IH]; simpl; [tauto|].
  destruct (PyStr.eqb (merge_key e) k) eqn:E; simpl; [discriminate|].
  apply pystr_eqb_neq in E. intros [H|H]; [congruence | auto].
Qed.

Lemma quantities_of_unseen (k : pystr) (es : list IngredientEntry) :
  ~ In k (List.map merge_key es) -> quantities_of k es = [].
Proof.
  unfold quantities_of. induction es as [|e es IH]; simpl; [reflexivity|].
  intros H. destruct (PyStr.eqb (merge_key e) k) eqn:E.
  - apply pystr_eqb_eq in E. tauto.
  - apply IH; tauto.
Qed.

(* ================================================================== *)
(** * The loop of [aggregate_ingredients] computes the merged bucket *)
(* ================================================================== *)

Lemma as_entry_subscript (v : pyval) (e : IngredientEntry) :
  as_entry v = Some e ->
  subscript v (lit "item") = Ok (VStr (item e))
  /\ subscript v (lit "quantity") = Ok (VStr (quantity e)).
Proof.
  destruct v as [| | | |l|d]; simpl; try discriminate.
  destruct (dict_lookup (lit "item") d) as [[| | |i| |]|]; try discriminate.
  destruct (dict_lookup (lit "quantity") d) as [[| | |q| |]|]; try discriminate.
  intros H; injection H as <-. split; reflexivity.
Qed.

(** One more entry: a key seen before has the quantity appended to its
    value in place, a new key is stored last with the quantity as it is. *)
Lemma aggregated_after_snoc (es : list IngredientEntry) (e : IngredientEntry) :
  aggregated_after (es ++ [e])
  = if seen (merge_key e) (List.map merge_key es)
    then keyed (fun k =>
                  if PyStr.eqb k (merge_key e)
                  then VStr (join separator (quantities_of (merge_key e) es)
                             ++ separator ++ quantity e)
                  else VStr (join separator (quantities_of k es)))
               (first_occurrences (List.map merge_key es))
    else aggregated_after es ++ [(merge_key e, VStr (quantity e))].
Proof.
  unfold aggregated_after. rewrite map_app; simpl.
  rewrite first_occurrences_snoc.
  destruct (seen (merge_key e) (List.map merge_key es)) eqn:Hseen.
  - apply keyed_ext. intros k Hk. rewrite quantities_of_snoc.
    rewrite (pystr_eqb_sym k (merge_key e)).
    destruct (PyStr.eqb (merge_key e) k) eqn:E.
    + apply pystr_eqb_eq in E; subst k. rewrite join_snoc; [reflexivity|].
      apply quantities_of_seen. rewrite <- seen_In; exact Hseen.
    + rewrite app_nil_r; reflexivity.
  - rewrite seen_not_In in Hseen. unfold keyed. rewrite map_app; simpl. f_equal.
    + apply map_ext_in. intros k Hk. rewrite quantities_of_snoc.
      destruct (PyStr.eqb (merge_key e) k) eqn:E.
      * apply pystr_eqb_eq in E; subst k.
        rewrite first_occurrences_In in Hk. tauto.
      * rewrite app_nil_r; reflexivity.
    + rewrite quantities_of_snoc, pystr_eqb_refl.
      rewrite quantities_of_unseen by exact Hseen. reflexivity.
Qed.

Lemma merge_item_entry (es : list IngredientEntry) (v : pyval)
    (e : IngredientEntry) :
  as_entry v = Some e ->
  merge_item (aggregated_after es) v = Ok (aggregated_after (es ++ [e])).
Proof.
  intros Hv. destruct (as_entry_subscript v Hv) as [Hi Hq].
  rewrite aggregated_after_snoc.
  unfold merge_item. rewrite Hi; simpl. fold (merge_key e).
  unfold aggregated_after.
  destruct (seen (merge_key e) (List.map merge_key es)) eqn:Hseen.
  - rewrite seen_In, <- first_occurrences_In in Hseen.
    rewrite lookup_keyed_in by exact Hseen. rewrite Hq; simpl.
    rewrite store_keyed_old
      by (try apply first_occurrences_NoDup; exact Hseen).
    reflexivity.
  - rewrite seen_not_In, <- first_occurrences_In in Hseen.
    rewrite lookup_keyed_notin by exact Hseen. rewrite Hq; simpl.
    rewrite store_keyed_new by exact Hseen. reflexivity.
Qed.

Lemma for_each_entries (vs : list pyval) :
  forall (es done : list IngredientEntry),
  as_entries vs = Some es ->
  for_each merge_item (aggregated_after done) vs
  = Ok (aggregated_after (done ++ es)).
Proof.
  induction vs as [|v vs IH]; simpl; intros es done H.
  - injection H as <-. rewrite app_nil_r; reflexivity.
  - destruct (as_entry v) as [e|] eqn:Hv; [|discriminate].
    destruct (as_entries vs) as [es'|] eqn:Hvs; [|discriminate].
    injection H as <-.
    rewrite (merge_item_entry done v Hv); simpl.
    rewrite (IH es' (done ++ [e]) eq_refl), <- app_assoc. reflexivity.
Qed.

Lemma final_list_after (es : list IngredientEntry) :
  final_list (aggregated_after es) = bucket_value (merged_bucket es).
Proof.
  unfold final_list, aggregated_after, keyed, bucket_value, merged_bucket.
  rewrite !map_map. reflexivity.
Qed.

(** The bucket under [key], present or not, goes through the loop. *)
Lemma aggregate_bucket_entries (d : list (pystr * pyval)) (key : pystr)
    (es : list IngredientEntry) :
  bucket_or_empty d key = Some es ->
  aggregate_bucket (VDict d) key = Ok (aggregated_after es).
Proof.
  unfold bucket_or_empty, aggregate_bucket; simpl.
  destruct (dict_lookup key d) as [b|]; simpl.
  - destruct b as [| | | |l|]; simpl; try discriminate. intros H.
    exact (for_each_entries l [] H).
  - intros H; injection H as <-. reflexivity.
Qed.

(** The code against the specification's algorithm: a dict whose buckets,
    where present, are lists of entries is mapped to the merged buckets. *)
Lemma aggregate_ingredients_merged (d : list (pystr * pyval))
    (ps qs : list IngredientEntry) :
  bucket_or_empty d (lit "pantry") = Some ps ->
  bucket_or_empty d (lit "perishables") = Some qs ->
  aggregate_ingredients (VDict d)
  = Ok (set_value {| pantry := merged_bucket ps;
                     perishables := merged_bucket qs |}).
Proof.
  intros Hp Hq. unfold aggregate_ingredients.
  rewrite (aggregate_bucket_entries d (lit "pantry") Hp); simpl.
  rewrite (aggregate_bucket_entries d (lit "perishables") Hq); simpl.
  rewrite !final_list_after. reflexivity.
Qed.

Lemma as_categorized_set_buckets (x : pyval) (cs : CategorizedSet) :
  as_categorized_set x = Some cs ->
  exists d, x = VDict d
    /\ d <> []
    /\ bucket_or_empty d (lit "pantry") = Some (pantry cs)
    /\ bucket_or_empty d (lit "perishables") = Some (perishables cs).
Proof.
  destruct x as [| | | | |d]; simpl; try discriminate.
  destruct (dict_lookup (lit "pantry") d) as [p|] eqn:Hp; [|discriminate].
  destruct (dict_lookup (lit "perishables") d) as [q|] eqn:Hq; [|discriminate].
  destruct (as_bucket p) as [ps|] eqn:Hps; [|discriminate].
  destruct (as_bucket q) as [qs|] eqn:Hqs; [|discriminate].
  intros H; injection H as <-. exists d. unfold bucket_or_empty.
  rewrite Hp, Hq. simpl.
  split; [reflexivity|]. split; [|split; assumption].
  intros ->; simpl in Hp; discriminate.
Qed.

Lemma aggregate_ingredients_set (x : pyval) (cs : CategorizedSet) :
  as_categorized_set x = Some cs ->
  aggregate_ingredients x = Ok (set_value (merged_set cs)).
Proof.
  intros H. destruct (as_categorized_set_buckets x H) as (d & -> & _ & Hp & Hq).
  apply aggregate_ingredients_merged; assumption.
Qed.

Lemma as_entries_values (es : list IngredientEntry) :
  as_entries (List.map entry_value es) = Some es.
Proof.
  induction es as [|[i q] es IH]; simpl; [reflexivity|].
  simpl in IH. rewrite IH. reflexivity.
Qed.

Lemma as_categorized_set_value (cs : CategorizedSet) :
  as_categorized_set (set_value cs) = Some cs.
Proof.
  destruct cs as [ps qs]. unfold set_value, as_categorized_set; simpl.
  rewrite !as_entries_values. reflexivity.
Qed.

(* ================================================================== *)
(** * Properties of the merged bucket *)
(* ================================================================== *)

Lemma sorted_map_filter (A : Type) (f : A -> nat) (p : A -> bool) (l : list A) :
  StronglySorted lt (List.map f l) ->
  StronglySorted lt (List.map f (List.filter p l)).
Proof.
  induction l as [|a l IH]; simpl; intros H; [constructor|].
  inversion H as [|? ? Hs Hall]; subst.
  destruct (p a); simpl; [|auto].
  constructor; [auto|].
  rewrite Forall_forall in *. intros y Hy. apply Hall.
  rewrite in_map_iff in *. destruct Hy as (x & <- & Hx).
  exists x. split; [reflexivity|]. apply filter_In in Hx; tauto.
Qed.

Lemma sorted_map_S (l : list nat) :
  StronglySorted lt l -> StronglySorted lt (List.map S l).
Proof.
  induction 1 as [|a l Hs IH Hall]; simpl; constructor; [exact IH|].
  rewrite Forall_forall in *. intros y Hy.
  rewrite in_map_iff in Hy. destruct Hy as (x & <- & Hx).
  apply Hall in Hx. lia.
Qed.

Lemma first_occurrences_sorted (ks : list pystr) :
  StronglySorted lt
    (List.map (fun k => first_index k ks) (first_occurrences ks)).
Proof.
  induction ks as [|a ks IH]; simpl; [constructor|].
  rewrite pystr_eqb_refl.
  set (rest := List.filter (fun x => negb (PyStr.eqb x a)) (first_occurrences ks)).
  assert (E : List.map (fun k => if PyStr.eqb a k then 0 else S (first_index k ks)) rest
              = List.map S (List.map (fun k => first_index k ks) rest)).
  { rewrite map_map. apply map_ext_in. intros k Hk.
    apply filter_In in Hk. destruct Hk as [_ Hk].
    rewrite negb_true_iff, pystr_eqb_sym in Hk. rewrite Hk. reflexivity. }
  rewrite E. constructor.
  - apply sorted_map_S. apply sorted_map_filter. exact IH.
  - rewrite Forall_forall. intros y Hy.
    rewrite in_map_iff in Hy. destruct Hy as (x & <- & _). lia.
Qed.

Lemma first_occurrences_order (ks : list pystr) :
  in_first_occurrence_order ks (first_occurrences ks).
Proof.
  split; [apply first_occurrences_NoDup|].
  split; [intros k; apply first_occurrences_In | apply first_occurrences_sorted].
Qed.

Lemma ascii_display_keeps_key (es : list IngredientEntry) :
  ascii_bucket es = true -> display_keeps_key es.
Proof.
  unfold ascii_bucket. rewrite forallb_forall. intros H e He.
  apply lower_title_lower_ascii. apply H; exact He.
Qed.

Lemma merged_keys (es : list IngredientEntry) :
  display_keeps_key es ->
  List.map merge_key (merged_bucket es)
  = first_occurrences (List.map merge_key es).
Proof.
  intros H. unfold merged_bucket. rewrite map_map.
  rewrite <- (map_id (first_occurrences (List.map merge_key es))) at 2.
  apply map_ext_in. intros k Hk.
  rewrite first_occurrences_In, in_map_iff in Hk.
  destruct Hk as (e & <- & He). unfold merge_key at 1; simpl.
  apply H; exact He.
Qed.

Lemma merged_bucket_unique (es : list IngredientEntry) :
  display_keeps_key es -> case_insensitively_unique (merged_bucket es).
Proof.
  intros H. unfold case_insensitively_unique.
  change (NoDup (List.map merge_key (merged_bucket es))).
  rewrite merged_keys by exact H. apply first_occurrences_NoDup.
Qed.

Lemma filter_one_key (g : pystr -> IngredientEntry) (ks : list pystr)
    (k : pystr) :
  NoDup ks -> In k ks ->
  (forall k', In k' ks -> merge_key (g k') = k') ->
  List.filter (fun e => PyStr.eqb (merge_key e) k) (List.map g ks) = [g k].
Proof.
  induction ks as [|a ks IH]; simpl; [tauto|].
  intros Hnd Hin Hg. inversion Hnd as [|? ? Hnotin Hnd']; subst.
  rewrite (Hg a) by (left; reflexivity).
  destruct (PyStr.eqb a k) eqn:E.
  - apply pystr_eqb_eq in E; subst a. f_equal.
    rewrite (filter_ext_in _ (fun _ => false)); [apply filter_false|].
    intros e He. rewrite in_map_iff in He. destruct He as (k' & <- & Hk').
    rewrite Hg by (right; exact Hk'). apply pystr_eqb_neq. intros ->; tauto.
  - apply pystr_eqb_neq in E. destruct Hin as [Hin|Hin]; [congruence|].
    apply IH; auto.
Qed.

(** Aggregating a bucket that is already aggregated changes nothing, where
    the display form keeps the key. *)
Lemma merged_bucket_idempotent (es : list IngredientEntry) :
  display_keeps_key es -> merged_bucket (merged_bucket es) = merged_bucket es.
Proof.
  intros H. unfold merged_bucket at 1.
  rewrite merged_keys by exact H.
  rewrite first_occurrences_distinct by apply first_occurrences_NoDup.
  unfold merged_bucket at 2. apply map_ext_in. intros k Hk.
  unfold merged_entry at 1. unfold quantities_of, merged_bucket.
  rewrite (@filter_one_key (merged_entry es)
             (first_occurrences (List.map merge_key es)) k).
  - reflexivity.
  - apply first_occurrences_NoDup.
  - exact Hk.
  - intros k' Hk'. rewrite first_occurrences_In, in_map_iff in Hk'.
    destruct Hk' as (e & <- & He). unfold merge_key at 1; simpl.
    apply H; exact He.
Qed.

Lemma quantities_of_split (k : pystr) (l1 l2 l3 : list IngredientEntry)
    (e1 e2 : IngredientEntry) :
  merge_key e1 = k -> merge_key e2 = k ->
  quantities_of k (l1 ++ e1 :: l2 ++ e2 :: l3)
  = quantities_of k l1 ++ quantity e1
      :: quantities_of k l2 ++ quantity e2 :: quantities_of k l3.
Proof.
  intros H1 H2. unfold quantities_of.
  rewrite filter_app; simpl. rewrite H1, pystr_eqb_refl.
  rewrite filter_app; simpl. rewrite H2, pystr_eqb_refl.
  rewrite map_app; simpl. rewrite map_app; simpl. reflexivity.
Qed.

Lemma merged_bucket_pair (es l1 l2 l3 : list IngredientEntry)
    (e1 e2 : IngredientEntry) :
  es = l1 ++ e1 :: l2 ++ e2 :: l3 ->
  merge_key e1 = merge_key e2 ->
  merged_into_one es (merged_bucket es) e1 e2.
Proof.
  intros Hes Hk.
  assert (Hin : In (merge_key e1) (first_occurrences (List.map merge_key es))).
  { rewrite first_occurrences_In, in_map_iff. exists e1.
    split; [reflexivity|]. subst es. apply in_or_app; right; left; reflexivity. }
  destruct (in_split _ _ Hin) as (ks1 & ks2 & Hks).
  exists ks1, ks2, (quantities_of (merge_key e1) l1),
         (quantities_of (merge_key e1) l2), (quantities_of (merge_key e1) l3).
  split; [unfold merged_bucket; rewrite Hks; reflexivity|]. split.
  - apply NoDup_remove_2. rewrite <- Hks. apply first_occurrences_NoDup.
  - rewrite Hes. apply quantities_of_split; [reflexivity | symmetry; exact Hk].
Qed.

(* ================================================================== *)
(** * The model on examples *)
(* ================================================================== *)

Example title_of_words :
  PyStr.title (lit "it's 2nd olive oil") = lit "It'S 2Nd Olive Oil".
Proof. reflexivity. Qed.

Example title_of_sharp_s :
  PyStr.lower [0xDF%N] = [0xDF%N] /\ PyStr.title [0xDF%N] = lit "Ss".
Proof. split; reflexivity. Qed.

Example strip_of_blanks :
  PyStr.strip (lit "  Cake ") = lit "Cake" /\ PyStr.strip (lit "   ") = [].
Proof. split; reflexivity. Qed.

(** The aggregation of the end-to-end scenario of the specification. *)
Example scenario_aggregated :
  aggregate_ingredients (set_value scenario_set)
  = Ok (set_value
          {| pantry := [entry "Flour" "1 cup"];
             perishables := [entry "Egg" "2 + 3"; entry "Milk" "1 cup"] |}).
Proof. vm_compute. reflexivity. Qed.

(** The schema of the categorizer (lines 79-104) does not require the keys
    of an entry; an entry without its quantity makes the Aggregator raise. *)
Example entry_without_quantity_raises :
  aggregate_ingredients
    (VDict [(lit "pantry", VList [VDict [(lit "item", VStr (lit "salt"))]]);
            (lit "perishables", VList [])])
  = Raise KeyError.
Proof. reflexivity. Qed.

(** A payload that is not a dict has no [get]. *)
Example list_payload_raises :
  aggregate_ingredients (VList [entry_value (entry "salt" "1 tsp")])
  = Raise AttributeError.
Proof. reflexivity. Qed.

(* ================================================================== *)
(** * The Aggregator: the claims *)
(* ================================================================== *)

(** C1 (as amended).  For every CategorizedSet whose item names are ASCII,
    each bucket of the Aggregator's output has no two entries whose items
    are equal under case-insensitive comparison. *)
Theorem aggregate_ingredients_unique_ascii (x : pyval) (cs : CategorizedSet) :
  as_categorized_set x = Some cs ->
  ascii_set cs = true ->
  exists out,
    aggregate_ingredients x = Ok (set_value out)
    /\ case_insensitively_unique (pantry out)
    /\ case_insensitively_unique (perishables out).
Proof.
  intros Hx Hascii. exists (merged_set cs).
  unfold ascii_set in Hascii. apply andb_true_iff in Hascii.
  destruct Hascii as [Hp Hq].
  split; [apply aggregate_ingredients_set; exact Hx|].
  split; simpl; apply merged_bucket_unique, ascii_display_keeps_key; assumption.
Qed.

Lemma aggregate_ingredients_unique_ascii_witness :
  exists out,
    aggregate_ingredients (set_value scenario_set) = Ok (set_value out)
    /\ case_insensitively_unique (pantry out)
    /\ case_insensitively_unique (perishables out).
Proof.
  apply (@aggregate_ingredients_unique_ascii (set_value scenario_set) scenario_set);
    reflexivity.
Defined.

(** C1, as stated, fails: the keys U+00DF and "ss" are distinct, and both
    are displayed as "Ss". *)
Lemma sharp_s_display_collides :
  as_categorized_set (set_value sharp_s_set) = Some sharp_s_set
  /\ aggregate_ingredients (set_value sharp_s_set)
     = Ok (set_value {| pantry := [entry "Ss" "1"; entry "Ss" "2"];
                        perishables := [] |})
  /\ ~ case_insensitively_unique [entry "Ss" "1"; entry "Ss" "2"].
Proof.
  split; [reflexivity|]. split; [vm_compute; reflexivity|].
  unfold case_insensitively_unique; simpl. intros H.
  inversion H as [|? ? Hnotin _]; subst. apply Hnotin. left; reflexivity.
Qed.

(** C2.  A bucket holding {"Salt","1 tsp"} and {"salt","2 tsp"} in that
    order comes out as the single entry {"Salt","1 tsp + 2 tsp"}, in the
    pantry and in the perishables alike, whatever the other bucket holds. *)
Theorem salt_entries_merge (others : list IngredientEntry) :
  aggregate_ingredients
    (set_value {| pantry := salt_twice; perishables := others |})
  = Ok (set_value {| pantry := [entry "Salt" "1 tsp + 2 tsp"];
                     perishables := merged_bucket others |})
  /\ aggregate_ingredients
       (set_value {| pantry := others; perishables := salt_twice |})
     = Ok (set_value {| pantry := merged_bucket others;
                        perishables := [entry "Salt" "1 tsp + 2 tsp"] |}).
Proof.
  split; rewrite (aggregate_ingredients_set _ (as_categorized_set_value _));
    reflexivity.
Qed.

(** C3 (as amended).  Two entries of one input bucket whose items are equal
    once lower-cased go into one output entry, which holds both quantities
    in arrival order; the Aggregator does not strip blanks. *)
Theorem same_case_entries_merge (x : pyval) (cs : CategorizedSet)
    (e1 e2 : IngredientEntry) :
  as_categorized_set x = Some cs ->
  PyStr.lower (item e1) = PyStr.lower (item e2) ->
  exists out,
    aggregate_ingredients x = Ok (set_value out)
    /\ (forall l1 l2 l3, pantry cs = l1 ++ e1 :: l2 ++ e2 :: l3 ->
          merged_into_one (pantry cs) (pantry out) e1 e2)
    /\ (forall l1 l2 l3, perishables cs = l1 ++ e1 :: l2 ++ e2 :: l3 ->
          merged_into_one (perishables cs) (perishables out) e1 e2).
Proof.
  intros Hx Hk. exists (merged_set cs).
  split; [apply aggregate_ingredients_set; exact Hx|].
  split; intros l1 l2 l3 Hes; simpl;
    (eapply merged_bucket_pair; [exact Hes | exact Hk]).
Qed.

Lemma same_case_entries_merge_witness :
  exists out,
    aggregate_ingredients
      (set_value {| pantry := salt_twice; perishables := salt_twice |})
    = Ok (set_value out)
    /\ merged_into_one salt_twice (pantry out)
         (entry "Salt" "1 tsp") (entry "salt" "2 tsp")
    /\ merged_into_one salt_twice (perishables out)
         (entry "Salt" "1 tsp") (entry "salt" "2 tsp").
Proof.
  destruct (@same_case_entries_merge
              (set_value {| pantry := salt_twice; perishables := salt_twice |})
              {| pantry := salt_twice; perishables := salt_twice |}
              (entry "Salt" "1 tsp") (entry "salt" "2 tsp")
              eq_refl eq_refl) as (out & Hout & Hp & Hq).
  exists out. split; [exact Hout|].
  split; [apply (Hp [] [] []) | apply (Hq [] [] [])]; reflexivity.
Defined.

(** C3, as stated, fails: "salt" and " Salt " differ only by case and by
    leading and trailing blanks, and come out as two entries. *)
Lemma padded_name_not_merged :
  PyStr.lower (PyStr.strip (lit "salt"))
  = PyStr.lower (PyStr.strip (lit " Salt "))
  /\ aggregate_ingredients (set_value padded_salt_set)
     = Ok (set_value {| pantry := [entry "Salt" "1"; entry " Salt " "2"];
                        perishables := [] |}).
Proof. split; vm_compute; reflexivity. Qed.

(** C5 (as amended).  Aggregation is idempotent on every CategorizedSet
    whose item names are ASCII: the Aggregator maps its own output to the
    same AggregatedSet. *)
Theorem aggregate_ingredients_idempotent_ascii (x : pyval)
    (cs : CategorizedSet) :
  as_categorized_set x = Some cs ->
  ascii_set cs = true ->
  exists y, aggregate_ingredients x = Ok y /\ aggregate_ingredients y = Ok y.
Proof.
  intros Hx Hascii. exists (set_value (merged_set cs)).
  unfold ascii_set in Hascii. apply andb_true_iff in Hascii.
  destruct Hascii as [Hp Hq].
  split; [apply aggregate_ingredients_set; exact Hx|].
  rewrite (aggregate_ingredients_set _ (as_categorized_set_value _)).
  unfold merged_set; simpl.
  rewrite !merged_bucket_idempotent
    by (apply ascii_display_keeps_key; assumption).
  reflexivity.
Qed.

Lemma aggregate_ingredients_idempotent_ascii_witness :
  exists y,
    aggregate_ingredients (set_value scenario_set) = Ok y
    /\ aggregate_ingredients y = Ok y.
Proof.
  apply (@aggregate_ingredients_idempotent_ascii
           (set_value scenario_set) scenario_set); reflexivity.
Defined.

(** C5, as stated, fails: the two "Ss" entries the Aggregator gives for
    U+00DF and "ss" are merged by a second pass. *)
Lemma sharp_s_not_idempotent :
  exists y z,
    aggregate_ingredients (set_value sharp_s_set) = Ok y
    /\ aggregate_ingredients y = Ok z
    /\ y <> z.
Proof.
  exists (set_value {| pantry := [entry "Ss" "1"; entry "Ss" "2"];
                       perishables := [] |}),
         (set_value {| pantry := [entry "Ss" "1 + 2"]; perishables := [] |}).
  split; [vm_compute; reflexivity|]. split; [vm_compute; reflexivity|].
  discriminate.
Qed.

(** C6.  Each output bucket lists one entry per distinct merge key of the
    input bucket, in the order in which the keys first occur there. *)
Theorem aggregate_ingredients_first_occurrence_order (x : pyval)
    (cs : CategorizedSet) :
  as_categorized_set x = Some cs ->
  exists out kp kq,
    aggregate_ingredients x = Ok (set_value out)
    /\ pantry out = List.map (merged_entry (pantry cs)) kp
    /\ in_first_occurrence_order (List.map merge_key (pantry cs)) kp
    /\ perishables out = List.map (merged_entry (perishables cs)) kq
    /\ in_first_occurrence_order (List.map merge_key (perishables cs)) kq.
Proof.
  intros Hx.
  exists (merged_set cs), (first_occurrences (List.map merge_key (pantry cs))),
         (first_occurrences (List.map merge_key (perishables cs))).
  split; [apply aggregate_ingredients_set; exact Hx|].
  repeat split; try reflexivity;
    try apply first_occurrences_NoDup; try apply first_occurrences_In;
    try apply first_occurrences_sorted.
Qed.

Lemma aggregate_ingredients_first_occurrence_order_witness :
  exists out kp kq,
    aggregate_ingredients (set_value scenario_set) = Ok (set_value out)
    /\ pantry out = List.map (merged_entry (pantry scenario_set)) kp
    /\ in_first_occurrence_order (List.map merge_key (pantry scenario_set)) kp
    /\ perishables out = List.map (merged_entry (perishables scenario_set)) kq
    /\ in_first_occurrence_order
         (List.map merge_key (perishables scenario_set)) kq.
Proof.
  apply (@aggregate_ingredients_first_occurrence_order
           (set_value scenario_set) scenario_set); reflexivity.
Defined.

(** C7.  An empty input bucket comes out as an empty bucket, in a normal
    result. *)
Theorem empty_bucket_stays_empty (x : pyval) (cs : CategorizedSet) :
  as_categorized_set x = Some cs ->
  exists out,
    aggregate_ingredients x = Ok (set_value out)
    /\ (pantry cs = [] -> pantry out = [])
    /\ (perishables cs = [] -> perishables out = []).
Proof.
  intros Hx. exists (merged_set cs).
  split; [apply aggregate_ingredients_set; exact Hx|].
  split; intros H; simpl; rewrite H; reflexivity.
Qed.

Lemma empty_bucket_stays_empty_witness :
  exists out,
    aggregate_ingredients
      (VDict [(lit "pantry", VList []); (lit "perishables", VList [])])
    = Ok (set_value out)
    /\ pantry out = []
    /\ perishables out = [].
Proof.
  destruct (@empty_bucket_stays_empty
              (VDict [(lit "pantry", VList []); (lit "perishables", VList [])])
              {| pantry := []; perishables := [] |} eq_refl)
    as (out & Hout & Hp & Hq).
  exists out. split; [exact Hout|]. split; [apply Hp | apply Hq]; reflexivity.
Defined.

(** C8 (as amended).  On every CategorizedSet the Aggregator returns and
    raises nothing, and what it returns is the merged set: per bucket, one
    entry for each distinct lower-cased item in the order of first
    occurrence, with the title-cased item and the joined quantities.  That
    result is again a dict of two buckets of entries, and it is an
    AggregatedSet where the item names are ASCII. *)
Theorem aggregate_ingredients_total (x : pyval) (cs : CategorizedSet) :
  as_categorized_set x = Some cs ->
  aggregate_ingredients x = Ok (set_value (merged_set cs))
  /\ as_categorized_set (set_value (merged_set cs)) = Some (merged_set cs)
  /\ (ascii_set cs = true -> aggregated_set (merged_set cs)).
Proof.
  intros Hx. split; [apply aggregate_ingredients_set; exact Hx|].
  split; [apply as_categorized_set_value|].
  unfold ascii_set. rewrite andb_true_iff. intros [Hp Hq].
  split; simpl; apply merged_bucket_unique, ascii_display_keeps_key;
    assumption.
Qed.

Lemma aggregate_ingredients_total_witness :
  aggregate_ingredients (set_value scenario_set)
  = Ok (set_value
          {| pantry := [entry "Flour" "1 cup"];
             perishables := [entry "Egg" "2 + 3"; entry "Milk" "1 cup"] |})
  /\ aggregated_set (merged_set scenario_set).
Proof.
  destruct (@aggregate_ingredients_total (set_value scenario_set) scenario_set
              eq_refl) as (Hret & _ & Hagg).
  split; [rewrite Hret; reflexivity | apply Hagg; reflexivity].
Defined.

(** C8, as stated, fails: for the names U+00DF and "ss" the Aggregator
    returns, and what it returns is no AggregatedSet. *)
Lemma sharp_s_result_not_aggregated :
  as_categorized_set (set_value sharp_s_set) = Some sharp_s_set
  /\ aggregate_ingredients (set_value sharp_s_set)
     = Ok (set_value {| pantry := [entry "Ss" "1"; entry "Ss" "2"];
                        perishables := [] |})
  /\ ~ aggregated_set {| pantry := [entry "Ss" "1"; entry "Ss" "2"];
                         perishables := [] |}.
Proof.
  split; [reflexivity|]. split; [vm_compute; reflexivity|].
  intros [H _]. unfold case_insensitively_unique in H; simpl in H.
  inversion H as [|? ? Hnotin _]; subst. apply Hnotin. left; reflexivity.
Qed.



(* ================================================================== *)
(** * The handler: what the replies of the capability lead to *)
(* ================================================================== *)

Lemma process_dish_shaped (w : world) (i : nat) (d : DishRequest)
    (st : run_state) :
  extraction_shaped (extract_reply w i) = true ->
  process_dish w i d st
  = Ok {| total_ingredients_extracted :=
            total_ingredients_extracted st ++ contribution w i;
          shown := shown st ++ dish_events w i d |}.
Proof.
  intros Hs. unfold process_dish, contribution, dish_events.
  destruct (truthy (recipe_reply w i)).
  - destruct (extract_reply w i) as [| | | |l|]; simpl in *; try discriminate.
    + unfold show; simpl. rewrite app_nil_r, <- app_assoc. reflexivity.
    + destruct l; unfold extend, show; simpl.
      * rewrite app_nil_r, <- app_assoc. reflexivity.
      * reflexivity.
  - unfold show; simpl. rewrite app_nil_r. reflexivity.
Qed.

Lemma dish_loop_shaped (w : world) (ds : list DishRequest) :
  forall (i : nat) (st : run_state),
  (forall j, j < List.length ds -> extraction_shaped (extract_reply w (i + j)) = true) ->
  dish_loop w i ds st
  = Ok {| total_ingredients_extracted :=
            total_ingredients_extracted st
              ++ flat_map (contribution w) (seq i (List.length ds));
          shown := shown st ++ events_from w i ds |}.
Proof.
  induction ds as [|d ds IH]; intros i st H; simpl.
  - rewrite !app_nil_r. destruct st; reflexivity.
  - rewrite process_dish_shaped
      by (specialize (H 0); rewrite Nat.add_0_r in H; apply H; simpl; lia).
    simpl. rewrite IH.
    + simpl. rewrite <- !app_assoc. reflexivity.
    + intros j Hj. replace (S i + j) with (i + S j) by lia.
      apply H; simpl; lia.
Qed.

Lemma contribution_has_keys (w : world) (i : nat) :
  extraction_shaped (extract_reply w i) = true ->
  forallb has_entry_keys (contribution w i) = true.
Proof.
  unfold contribution. intros H.
  destruct (truthy (recipe_reply w i)); [|reflexivity].
  destruct (extract_reply w i); simpl in *; try reflexivity. exact H.
Qed.

Lemma accumulated_has_keys (w : world) (n : nat) :
  (forall i, i < n -> extraction_shaped (extract_reply w i) = true) ->
  forallb has_entry_keys (flat_map (contribution w) (seq 0 n)) = true.
Proof.
  intros H. apply forallb_forall. intros v Hv.
  apply in_flat_map in Hv. destruct Hv as (i & Hi & Hv).
  apply in_seq in Hi.
  assert (Hc := @contribution_has_keys w i (H i ltac:(lia))).
  rewrite forallb_forall in Hc. apply Hc; exact Hv.
Qed.

Lemma categorize_with_keys (w : world) (total : list pyval) :
  forallb has_entry_keys total = true ->
  categorize_and_normalize_ingredients w total = Ok (categorize_reply w).
Proof.
  unfold categorize_and_normalize_ingredients. intros H.
  assert (E : for_each (fun (_ : unit) it =>
                          _ <- subscript it (lit "item") ;;
                          _ <- subscript it (lit "quantity") ;; Ok tt)
                       tt total = Ok tt).
  { induction total as [|v total IH]; simpl; [reflexivity|].
    simpl in H. apply andb_true_iff in H. destruct H as [Hv Ht].
    unfold has_entry_keys in Hv.
    destruct (subscript v (lit "item")); try discriminate.
    destruct (subscript v (lit "quantity")); try discriminate.
    simpl. apply IH; exact Ht. }
  rewrite E. reflexivity.
Qed.

Lemma truthy_categorized_set (x : pyval) (cs : CategorizedSet) :
  as_categorized_set x = Some cs -> truthy x = true.
Proof.
  intros H. destruct (as_categorized_set_buckets x H) as (d & -> & Hd & _).
  destruct d; [congruence | reflexivity].
Qed.

Lemma bind_Ok (A B : Type) (a : A) (k : A -> result B) : bind (Ok a) k = k a.
Proof. reflexivity. Qed.

Lemma finish_with_ingredients (w : world) (total : list pyval)
    (log : list event) :
  total <> [] ->
  forallb has_entry_keys total = true ->
  finish w {| total_ingredients_extracted := total; shown := log |}
  = if truthy (categorize_reply w)
    then final_grocery_list <- aggregate_ingredients (categorize_reply w) ;;
         Ok (log, Done final_grocery_list)
    else Ok (log, CategorizationFailure).
Proof.
  intros Hne Hk. unfold finish; simpl.
  destruct total as [|v total]; [congruence|].
  rewrite categorize_with_keys by exact Hk. reflexivity.
Qed.

(** The handler once the loop is through, on an accumulator that is not
    empty. *)
Lemma generate_with_ingredients (w : world) (dishes : list DishRequest) :
  (forall i, i < List.length (valid_dishes dishes) ->
             extraction_shaped (extract_reply w i) = true) ->
  flat_map (contribution w) (seq 0 (List.length (valid_dishes dishes))) <> [] ->
  generate_grocery_list w dishes
  = if truthy (categorize_reply w)
    then final_grocery_list <- aggregate_ingredients (categorize_reply w) ;;
         Ok (events_from w 0 (valid_dishes dishes), Done final_grocery_list)
    else Ok (events_from w 0 (valid_dishes dishes), CategorizationFailure).
Proof.
  intros Hs Hne. unfold generate_grocery_list.
  assert (Hk := accumulated_has_keys w Hs).
  destruct (valid_dishes dishes) as [|d valid] eqn:Hv; [simpl in Hne; congruence|].
  rewrite dish_loop_shaped by (intros j Hj; apply Hs; exact Hj).
  rewrite bind_Ok. apply finish_with_ingredients; assumption.
Qed.

Lemma generate_without_ingredients (w : world) (dishes : list DishRequest) :
  (forall i, i < List.length (valid_dishes dishes) ->
             extraction_shaped (extract_reply w i) = true) ->
  valid_dishes dishes <> [] ->
  flat_map (contribution w) (seq 0 (List.length (valid_dishes dishes))) = [] ->
  generate_grocery_list w dishes
  = Ok (events_from w 0 (valid_dishes dishes), NoIngredientsExtracted).
Proof.
  intros Hs Hv He. unfold generate_grocery_list.
  destruct (valid_dishes dishes) as [|d valid]; [congruence|].
  rewrite dish_loop_shaped by (intros j Hj; apply Hs; exact Hj).
  rewrite bind_Ok. unfold finish, start.
  cbn [total_ingredients_extracted shown]. 
  change ([] ++ flat_map (contribution w) (seq 0 (List.length (d :: valid))))
    with (flat_map (contribution w) (seq 0 (List.length (d :: valid)))).
  rewrite He. reflexivity.
Qed.

Lemma failed_dish_warned (w : world) (ds : list DishRequest) :
  forall (i j : nat) (d : DishRequest),
  nth_error ds j = Some d ->
  dish_failed w (i + j) = true ->
  In (failure_warning w (i + j) d) (events_from w i ds).
Proof.
  induction ds as [|d0 ds IH]; intros i j d Hj Hf.
  - destruct j; discriminate.
  - destruct j as [|j]; simpl in Hj.
    + injection Hj as ->. rewrite Nat.add_0_r in *. simpl.
      apply in_or_app; left.
      unfold dish_failed in Hf. unfold failure_warning, dish_events.
      destruct (truthy (recipe_reply w i)); simpl in *; [|left; reflexivity].
      apply negb_true_iff in Hf. rewrite Hf. right; left; reflexivity.
    + simpl. apply in_or_app; right.
      replace (i + S j) with (S i + j) in * by lia.
      apply IH; assumption.
Qed.

Lemma failed_dish_contributes_nothing (w : world) (i : nat) :
  extraction_shaped (extract_reply w i) = true ->
  dish_failed w i = true -> contribution w i = [].
Proof.
  unfold dish_failed, contribution. intros Hs Hf.
  destruct (truthy (recipe_reply w i)); [|reflexivity].
  destruct (extract_reply w i) as [| | | |l|]; simpl in *; try reflexivity.
  destruct l; [reflexivity | discriminate].
Qed.

Lemma no_recipe_no_ingredients (w : world) (n : nat) :
  (forall i, i < n -> truthy (recipe_reply w i) = false) ->
  flat_map (contribution w) (seq 0 n) = [].
Proof.
  intros H. induction n as [|n IH]; [reflexivity|].
  rewrite seq_S, flat_map_app, IH by (intros i Hi; apply H; lia).
  simpl. unfold contribution. rewrite H by lia. reflexivity.
Qed.

(** The same facts for replies that are falsy or arrays of entries. *)
Lemma process_dish_usable (w : world) (i : nat) (d : DishRequest)
    (st : run_state) :
  extraction_usable (extract_reply w i) = true ->
  process_dish w i d st
  = Ok {| total_ingredients_extracted :=
            total_ingredients_extracted st ++ contribution w i;
          shown := shown st ++ dish_events w i d |}.
Proof.
  intros Hs. unfold process_dish, contribution, dish_events.
  destruct (truthy (recipe_reply w i));
    [|unfold show; simpl; rewrite app_nil_r; reflexivity].
  unfold extraction_usable in Hs.
  destruct (truthy (extract_reply w i)) eqn:Ht.
  - destruct (extract_reply w i) as [| | | |l|]; simpl in Hs;
      try discriminate.
    unfold extend, show; simpl. reflexivity.
  - unfold show; simpl. rewrite <- app_assoc.
    destruct (extract_reply w i) as [| | | |l|]; simpl in *;
      try (rewrite app_nil_r; reflexivity).
    destruct l; [rewrite app_nil_r; reflexivity | discriminate].
Qed.

Lemma dish_loop_usable (w : world) (ds : list DishRequest) :
  forall (i : nat) (st : run_state),
  (forall j, j < List.length ds ->
             extraction_usable (extract_reply w (i + j)) = true) ->
  dish_loop w i ds st
  = Ok {| total_ingredients_extracted :=
            total_ingredients_extracted st
              ++ flat_map (contribution w) (seq i (List.length ds));
          shown := shown st ++ events_from w i ds |}.
Proof.
  induction ds as [|d ds IH]; intros i st H; simpl.
  - rewrite !app_nil_r. destruct st; reflexivity.
  - rewrite process_dish_usable
      by (specialize (H 0); rewrite Nat.add_0_r in H; apply H; simpl; lia).
    simpl. rewrite IH.
    + simpl. rewrite <- !app_assoc. reflexivity.
    + intros j Hj. replace (S i + j) with (i + S j) by lia.
      apply H; simpl; lia.
Qed.

Lemma accumulated_has_keys_usable (w : world) (n : nat) :
  (forall i, i < n -> extraction_usable (extract_reply w i) = true) ->
  forallb has_entry_keys (flat_map (contribution w) (seq 0 n)) = true.
Proof.
  intros H. apply forallb_forall. intros v Hv.
  apply in_flat_map in Hv. destruct Hv as (i & Hi & Hv).
  apply in_seq in Hi. assert (Hu := H i ltac:(lia)).
  unfold contribution in Hv. unfold extraction_usable in Hu.
  destruct (truthy (recipe_reply w i)); [|destruct Hv].
  destruct (extract_reply w i) as [| | | |l|]; try destruct Hv.
  destruct l as [|a l]; [destruct Hv|]. simpl in Hu.
  apply andb_true_iff in Hu. destruct Hu as [Ha Hl].
  destruct Hv as [<-|Hv]; [exact Ha|].
  rewrite forallb_forall in Hl. apply Hl; exact Hv.
Qed.

Lemma generate_usable (w : world) (dishes : list DishRequest) :
  (forall i, i < List.length (valid_dishes dishes) ->
             extraction_usable (extract_reply w i) = true) ->
  valid_dishes dishes <> [] ->
  generate_grocery_list w dishes
  = finish w
      {| total_ingredients_extracted :=
           flat_map (contribution w)
                    (seq 0 (List.length (valid_dishes dishes)));
         shown := events_from w 0 (valid_dishes dishes) |}.
Proof.
  intros Hs Hv. unfold generate_grocery_list.
  destruct (valid_dishes dishes) as [|d valid]; [congruence|].
  rewrite dish_loop_usable by (intros j Hj; apply Hs; exact Hj).
  rewrite bind_Ok. reflexivity.
Qed.

(** A dish that failed, whatever the other replies are. *)
Lemma process_dish_failed (w : world) (i : nat) (d : DishRequest)
    (st : run_state) :
  dish_failed w i = true ->
  process_dish w i d st
  = Ok {| total_ingredients_extracted := total_ingredients_extracted st;
          shown := shown st ++ dish_events w i d |}
  /\ In (failure_warning w i d) (dish_events w i d).
Proof.
  unfold dish_failed, process_dish, dish_events, failure_warning.
  intros Hf. destruct (truthy (recipe_reply w i)); simpl in Hf.
  - apply negb_true_iff in Hf. rewrite Hf. unfold show; simpl.
    rewrite <- app_assoc. split; [reflexivity | right; left; reflexivity].
  - unfold show; simpl. split; [reflexivity | left; reflexivity].
Qed.

(* ================================================================== *)
(** * The handler: the claims *)
(* ================================================================== *)




(** C9 (as amended).  A dish whose recipe reply or extraction reply is
    falsy (the [None] that [call_gemini_api] returns for a failure it
    reports, an empty text, an empty array or object) never aborts the
    run, whatever the other replies are: the dish adds no entry, its
    warning is shown and the loop goes on.  Where every extraction reply is
    falsy or an array of entries, the loop goes through all valid dishes,
    the run gives a grocery list unless the accumulator is empty or the
    Categorizer did not return a CategorizedSet, and when every recipe
    reply is falsy the run ends in NoIngredientsExtracted. *)
Theorem falsy_replies_are_not_fatal (w : world) (dishes : list DishRequest) :
  (forall i d st,
     dish_failed w i = true ->
     process_dish w i d st
     = Ok {| total_ingredients_extracted := total_ingredients_extracted st;
             shown := shown st ++ dish_events w i d |}
     /\ In (failure_warning w i d) (dish_events w i d))
  /\ ((forall i, i < List.length (valid_dishes dishes) ->
                 extraction_usable (extract_reply w i) = true) ->
      exists total log,
        dish_loop w 0 (valid_dishes dishes) start
        = Ok {| total_ingredients_extracted := total; shown := log |}
        /\ total
           = flat_map (contribution w)
                      (seq 0 (List.length (valid_dishes dishes)))
        /\ (forall i d,
              nth_error (valid_dishes dishes) i = Some d ->
              dish_failed w i = true ->
              contribution w i = [] /\ In (failure_warning w i d) log)
        /\ ((exists final,
               generate_grocery_list w dishes = Ok (log, Done final))
            \/ total = []
            \/ as_categorized_set (categorize_reply w) = None)
        /\ (valid_dishes dishes <> [] -> total = [] ->
            generate_grocery_list w dishes = Ok (log, NoIngredientsExtracted))
        /\ ((forall i, i < List.length (valid_dishes dishes) ->
                       truthy (recipe_reply w i) = false) ->
            total = [])).
Proof.
  split; [intros i d st; apply process_dish_failed|].
  intros Hs.
  exists (flat_map (contribution w) (seq 0 (List.length (valid_dishes dishes)))),
         (events_from w 0 (valid_dishes dishes)).
  split; [apply (dish_loop_usable w (valid_dishes dishes) 0 start Hs)|].
  split; [reflexivity|]. split; [|split; [|split]].
  - intros i d Hi Hf. split.
    + unfold dish_failed in Hf. unfold contribution.
      destruct (truthy (recipe_reply w i)); [|reflexivity].
      simpl in Hf. apply negb_true_iff in Hf.
      destruct (extract_reply w i) as [| | | |l|]; try reflexivity.
      destruct l; [reflexivity | discriminate].
    + apply (failed_dish_warned w (valid_dishes dishes) 0 i Hi Hf).
  - pose proof (accumulated_has_keys_usable w Hs) as Hk.
    destruct (flat_map (contribution w)
                (seq 0 (List.length (valid_dishes dishes)))) as [|v total] eqn:Ht;
      [right; left; reflexivity|].
    assert (Hne : valid_dishes dishes <> []).
    { intros E. rewrite E in Ht. discriminate Ht. }
    destruct (as_categorized_set (categorize_reply w)) as [cs|] eqn:Hc;
      [left | right; right; reflexivity].
    exists (set_value (merged_set cs)).
    rewrite (generate_usable w dishes Hs Hne), Ht.
    rewrite finish_with_ingredients by (try exact Hk; discriminate).
    rewrite (truthy_categorized_set _ Hc), (aggregate_ingredients_set _ Hc).
    reflexivity.
  - intros Hv Ht. rewrite (generate_usable w dishes Hs Hv), Ht. reflexivity.
  - apply no_recipe_no_ingredients.
Qed.

Lemma falsy_replies_are_not_fatal_witness :
  generate_grocery_list empty_object_world [soup; blank; cake]
  = Ok ([InfoRecipeFound (lit "Soup"); WarnNoIngredients (lit "Soup");
         InfoRecipeFound (lit "Cake")],
        Done (set_value
                {| pantry := [entry "Flour" "1 cup"];
                   perishables := [entry "Egg" "2 + 3"; entry "Milk" "1 cup"] |}))
  /\ generate_grocery_list silent_world [soup; blank; cake]
     = Ok ([WarnNoRecipe (lit "Soup"); WarnNoRecipe (lit "Cake")],
           NoIngredientsExtracted).
Proof.
  split.
  - destruct (proj2 (@falsy_replies_are_not_fatal empty_object_world
                       [soup; blank; cake]))
      as (total & log & Hloop & Ht & _ & Hlist & _).
    + intros i _. destruct i; reflexivity.
    + injection Hloop as <- <-.
      destruct Hlist as [(final & Hfinal) | [H | H]];
        [| discriminate H | discriminate H].
      rewrite Hfinal. vm_compute in Hfinal. injection Hfinal as <-.
      reflexivity.
  - destruct (proj2 (@falsy_replies_are_not_fatal silent_world
                       [soup; blank; cake]))
      as (total & log & Hloop & Ht & _ & _ & Hnone & Hall).
    + intros i _. reflexivity.
    + injection Hloop as <- <-. apply Hnone; [discriminate|].
      reflexivity.
Defined.

(** C9, as stated, fails: the extraction for the second dish fails with an
    object in place of the array of entries; the handler takes it for
    ingredients, and the run aborts with [TypeError] when the prompt of
    the Categorizer is built, though the first dish gave an ingredient. *)
Lemma error_object_reply_aborts :
  as_bucket (extract_reply error_object_world 1) = None
  /\ truthy (extract_reply error_object_world 1) = true
  /\ contribution error_object_world 0 = [entry_value (entry "salt" "1 tsp")]
  /\ generate_grocery_list error_object_world [soup; cake] = Raise TypeError.
Proof. repeat split; vm_compute; reflexivity. Qed.

(* ================================================================== *)
(** * The dish list: adding and removing rows *)
(* ================================================================== *)

Lemma remove_nth_length (A : Type) (l : list A) :
  forall n, n < List.length l ->
  List.length (remove_nth n l) = List.length l - 1.
Proof.
  induction l as [|a l IH]; intros n Hn; [simpl in Hn; lia|].
  destruct n as [|n]; simpl; [lia|].
  simpl in Hn. rewrite IH by lia. destruct l; simpl in *; lia.
Qed.

Lemma remove_nth_split (A : Type) (l : list A) :
  forall n, remove_nth n l = firstn n l ++ skipn (S n) l.
Proof.
  induction l as [|a l IH]; intros [|n]; simpl; try reflexivity.
  rewrite IH. reflexivity.
Qed.

Lemma remove_nth_last (A : Type) (l : list A) (a : A) :
  remove_nth (List.length l) (l ++ [a]) = l.
Proof.
  induction l as [|b l IH]; simpl; [reflexivity|]. rewrite IH. reflexivity.
Qed.

(** X1.  Starting from a list that is not empty, no sequence of clicks on
    the two buttons that goes through empties the dish list. *)
Theorem dish_list_never_empty (cs : list dish_click)
    (dishes dishes' : list DishRequest) :
  dishes <> [] ->
  clicks cs dishes = Some dishes' ->
  dishes' <> [].
Proof.
  revert dishes. induction cs as [|c cs IH]; intros dishes Hne H; simpl in H.
  - injection H as <-. exact Hne.
  - destruct (click c dishes) as [d1|] eqn:Hc; [|discriminate].
    apply (IH d1); [|exact H].
    destruct c as [|index]; simpl in Hc.
    + injection Hc as <-. unfold add_dish. destruct dishes; discriminate.
    + unfold remove_dish in Hc.
      destruct (1 <? List.length dishes) eqn:Hlen; [|injection Hc as <-; exact Hne].
      apply Nat.ltb_lt in Hlen. unfold list_pop in Hc.
      destruct ((0 <=? _) && _)%Z eqn:Hr; [|discriminate].
      injection Hc as <-. apply andb_true_iff in Hr. destruct Hr as [H0 H1].
      apply Z.leb_le in H0. apply Z.ltb_lt in H1.
      intros E. apply (f_equal (@List.length _)) in E.
      rewrite remove_nth_length in E by lia. simpl in E. lia.
Qed.

Lemma dish_list_never_empty_witness :
  clicks [ClickRemove 0; ClickAdd; ClickAdd; ClickRemove (-1); ClickRemove 0]
         initial_dishes = Some [empty_dish]
  /\ [empty_dish] <> [].
Proof.
  split; [reflexivity|].
  apply (@dish_list_never_empty
           [ClickRemove 0; ClickAdd; ClickAdd; ClickRemove (-1); ClickRemove 0]
           initial_dishes [empty_dish]);
    [discriminate | reflexivity].
Defined.

(** X2.  On a list of more than one dish, [remove_dish] with the index of a
    row removes that row and nothing else: the rows before it and the rows
    after it stay, in order, and the list is one shorter. *)
Theorem remove_dish_removes_that_row (n : nat) (dishes : list DishRequest) :
  1 < List.length dishes ->
  n < List.length dishes ->
  remove_dish (Z.of_nat n) dishes
  = Some (firstn n dishes ++ skipn (S n) dishes)
  /\ List.length (firstn n dishes ++ skipn (S n) dishes)
     = List.length dishes - 1.
Proof.
  intros Hlen Hn. unfold remove_dish.
  apply Nat.ltb_lt in Hlen. rewrite Hlen. unfold list_pop.
  replace (Z.of_nat n <? 0)%Z with false by (symmetry; apply Z.ltb_ge; lia).
  replace ((0 <=? Z.of_nat n) && (Z.of_nat n <? Z.of_nat (List.length dishes)))%Z
    with true
    by (symmetry; apply andb_true_iff; split;
        [apply Z.leb_le | apply Z.ltb_lt]; lia).
  rewrite Nat2Z.id, <- remove_nth_split. split; [reflexivity|].
  apply remove_nth_length; exact Hn.
Qed.

Lemma remove_dish_removes_that_row_witness :
  remove_dish 1 [soup; blank; cake] = Some [soup; cake]
  /\ List.length [soup; cake] = 2.
Proof.
  apply (@remove_dish_removes_that_row 1 [soup; blank; cake]); simpl; lia.
Defined.

(** X3.  Removing the row that [add_dish] has just added gives the list
    back, by its index and by the index -1 alike. *)
Theorem add_then_remove_last (dishes : list DishRequest) :
  dishes <> [] ->
  remove_dish (Z.of_nat (List.length dishes)) (add_dish dishes) = Some dishes
  /\ remove_dish (-1) (add_dish dishes) = Some dishes.
Proof.
  intros Hne. unfold remove_dish, add_dish.
  assert (Hlen : 1 < List.length (dishes ++ [empty_dish])).
  { rewrite length_app; simpl. destruct dishes; [congruence | simpl; lia]. }
  apply Nat.ltb_lt in Hlen. rewrite Hlen. unfold list_pop.
  rewrite length_app; simpl List.length.
  split.
  - replace (Z.of_nat (List.length dishes) <? 0)%Z with false
      by (symmetry; apply Z.ltb_ge; lia).
    replace ((0 <=? Z.of_nat (List.length dishes))
             && (Z.of_nat (List.length dishes)
                 <? Z.of_nat (List.length dishes + 1)))%Z with true
      by (symmetry; apply andb_true_iff; split;
          [apply Z.leb_le | apply Z.ltb_lt]; lia).
    rewrite Nat2Z.id, remove_nth_last. reflexivity.
  - change (-1 <? 0)%Z with true. cbv iota.
    replace (-1 + Z.of_nat (List.length dishes + 1))%Z
      with (Z.of_nat (List.length dishes)) by lia.
    replace ((0 <=? Z.of_nat (List.length dishes))
             && (Z.of_nat (List.length dishes)
                 <? Z.of_nat (List.length dishes + 1)))%Z with true
      by (symmetry; apply andb_true_iff; split;
          [apply Z.leb_le | apply Z.ltb_lt]; lia).
    rewrite Nat2Z.id, remove_nth_last. reflexivity.
Qed.

Lemma add_then_remove_last_witness :
  remove_dish 2 (add_dish [soup; cake]) = Some [soup; cake]
  /\ remove_dish (-1) (add_dish [soup; cake]) = Some [soup; cake].
Proof.
  apply (@add_then_remove_last [soup; cake]). discriminate.
Defined.

(** X4.  The guard and the bounds of [remove_dish]: a list of one dish (or
    of none) is left as it is whatever the index, without an error; on a
    longer list an index past the end, or before the start counted from the
    end, makes the pop raise ([IndexError], or [OverflowError] where the
    index does not fit a machine word) and nothing is removed. *)
Theorem remove_dish_guard_and_bounds (index : Z) (dishes : list DishRequest) :
  (List.length dishes <= 1 -> remove_dish index dishes = Some dishes)
  /\ (1 < List.length dishes ->
      (Z.of_nat (List.length dishes) <= index
       \/ index < - Z.of_nat (List.length dishes))%Z ->
      remove_dish index dishes = None).
Proof.
  unfold remove_dish. split.
  - intros H. apply Nat.ltb_ge in H. rewrite H. reflexivity.
  - intros H Hout. apply Nat.ltb_lt in H. rewrite H. unfold list_pop.
    destruct (index <? 0)%Z eqn:Hneg.
    + apply Z.ltb_lt in Hneg.
      replace ((0 <=? index + Z.of_nat (List.length dishes))
               && (index + Z.of_nat (List.length dishes)
                   <? Z.of_nat (List.length dishes)))%Z with false;
        [reflexivity|].
      symmetry. apply andb_false_iff. left. apply Z.leb_gt. lia.
    + apply Z.ltb_ge in Hneg.
      replace ((0 <=? index) && (index <? Z.of_nat (List.length dishes)))%Z
        with false; [reflexivity|].
      symmetry. apply andb_false_iff. right. apply Z.ltb_ge. lia.
Qed.

Lemma remove_dish_guard_and_bounds_witness :
  remove_dish 7 [soup] = Some [soup]
  /\ remove_dish 2 [soup; cake] = None.
Proof.
  split.
  - apply (proj1 (remove_dish_guard_and_bounds 7 [soup])). simpl; lia.
  - apply (proj2 (remove_dish_guard_and_bounds 2 [soup; cake])); simpl; lia.
Defined.

(* ================================================================== *)
(** * The handler: blank names, and what the list is made from *)
(* ================================================================== *)

Lemma lstrip_nil (s : pystr) :
  PyStr.lstrip s = [] <-> forallb PyStr.is_space s = true.
Proof.
  induction s as [|c s IH]; simpl; [tauto|].
  destruct (PyStr.is_space c); simpl; [exact IH|].
  split; discriminate.
Qed.

Lemma lstrip_spaces_only (s : pystr) :
  forallb PyStr.is_space (PyStr.lstrip s) = true -> PyStr.lstrip s = [].
Proof.
  induction s as [|c s IH]; simpl; [reflexivity|].
  destruct (PyStr.is_space c) eqn:Hc; [exact IH|].
  simpl. rewrite Hc. discriminate.
Qed.

Lemma forallb_rev_iff (A : Type) (p : A -> bool) (l : list A) :
  forallb p (rev l) = true <-> forallb p l = true.
Proof.
  rewrite !forallb_forall. split; intros H x Hx; apply H.
  - apply in_rev in Hx. exact Hx.
  - apply in_rev. exact Hx.
Qed.

(** [strip()] leaves the empty string exactly of the strings made of
    white space. *)
Lemma strip_nil (s : pystr) :
  PyStr.strip s = [] <-> forallb PyStr.is_space s = true.
Proof.
  unfold PyStr.strip. split.
  - intros H. apply lstrip_nil.
    apply (f_equal (@rev N)) in H. rewrite rev_involutive in H. simpl in H.
    apply (proj1 (lstrip_nil _)) in H.
    apply (proj1 (forallb_rev_iff _ _)) in H.
    apply lstrip_spaces_only; exact H.
  - intros H. apply (proj2 (lstrip_nil _)) in H. rewrite H. reflexivity.
Qed.

Lemma valid_dishes_nil (dishes : list DishRequest) :
  valid_dishes dishes = [] <-> forall d, In d dishes -> blank_name d = true.
Proof.
  unfold valid_dishes, blank_name.
  induction dishes as [|d dishes IH]; simpl; [tauto|].
  destruct (PyStr.strip (name d)) as [|c r] eqn:Hs; simpl.
  - apply strip_nil in Hs. rewrite IH. split.
    + intros H d' [<-|Hd']; auto.
    + intros H d' Hd'. apply H. right; exact Hd'.
  - split; [discriminate|]. intros H.
    assert (Hd : forallb PyStr.is_space (name d) = true)
      by (apply H; left; reflexivity).
    apply strip_nil in Hd. congruence.
Qed.

Lemma finish_not_empty_input (w : world) (st : run_state) (log : list event) :
  finish w st <> Ok (log, EmptyInput).
Proof.
  unfold finish. destruct (total_ingredients_extracted st); [discriminate|].
  destruct (categorize_and_normalize_ingredients w (p :: l)) as [c| |];
    simpl; try discriminate.
  destruct (truthy c); [|discriminate].
  destruct (aggregate_ingredients c); simpl; discriminate.
Qed.

(** X5.  A run ends with the warning for an empty input, having shown
    nothing else, exactly when every dish name is empty or made of white
    space only (an empty dish list among them). *)
Theorem empty_input_iff_all_blank (w : world) (dishes : list DishRequest) :
  generate_grocery_list w dishes = Ok ([], EmptyInput)
  <-> forall d, In d dishes -> blank_name d = true.
Proof.
  rewrite <- valid_dishes_nil. unfold generate_grocery_list.
  destruct (valid_dishes dishes) as [|d valid]; [tauto|].
  split; [|discriminate]. intros H. exfalso.
  destruct (dish_loop w 0 (d :: valid) start) as [st| |]; simpl in H;
    try discriminate.
  apply (finish_not_empty_input w st H).
Qed.

Lemma terminal_of_generate (w : world) (dishes : list DishRequest) :
  (forall i, i < List.length (valid_dishes dishes) ->
             extraction_shaped (extract_reply w i) = true) ->
  flat_map (contribution w) (seq 0 (List.length (valid_dishes dishes))) <> [] ->
  terminal_of (generate_grocery_list w dishes)
  = if truthy (categorize_reply w)
    then final_grocery_list <- aggregate_ingredients (categorize_reply w) ;;
         Ok (Done final_grocery_list)
    else Ok CategorizationFailure.
Proof.
  intros Hs Hne. rewrite (generate_with_ingredients w dishes Hs Hne).
  destruct (truthy (categorize_reply w)); [|reflexivity].
  destruct (aggregate_ingredients (categorize_reply w)); reflexivity.
Qed.

(** X6.  The grocery list is made from the Categorizer's reply alone: two
    runs whose extraction replies have the asked shape and give at least
    one ingredient end alike as soon as the Categorizer replies alike,
    whatever the dishes and the ingredients extracted were. *)
Theorem grocery_list_from_categorizer_alone (w1 w2 : world)
    (dishes1 dishes2 : list DishRequest) :
  (forall i, i < List.length (valid_dishes dishes1) ->
             extraction_shaped (extract_reply w1 i) = true) ->
  (forall i, i < List.length (valid_dishes dishes2) ->
             extraction_shaped (extract_reply w2 i) = true) ->
  flat_map (contribution w1) (seq 0 (List.length (valid_dishes dishes1))) <> [] ->
  flat_map (contribution w2) (seq 0 (List.length (valid_dishes dishes2))) <> [] ->
  categorize_reply w1 = categorize_reply w2 ->
  terminal_of (generate_grocery_list w1 dishes1)
  = terminal_of (generate_grocery_list w2 dishes2).
Proof.
  intros Hs1 Hs2 Hn1 Hn2 Hc.
  rewrite (terminal_of_generate w1 dishes1 Hs1 Hn1).
  rewrite (terminal_of_generate w2 dishes2 Hs2 Hn2).
  rewrite Hc. reflexivity.
Qed.

Lemma grocery_list_from_categorizer_alone_witness :
  terminal_of (generate_grocery_list scenario_world [soup; blank; cake])
  = terminal_of
      (generate_grocery_list
         {| recipe_reply := recipe_reply pantry_only_world;
            extract_reply := extract_reply pantry_only_world;
            categorize_reply := categorize_reply scenario_world |}
         [soup]).
Proof.
  apply grocery_list_from_categorizer_alone;
    try (intros i _; reflexivity); try discriminate; reflexivity.
Defined.

Lemma dish_loop_raises (w : world) (e : pyexc) (ds : list DishRequest) :
  forall (i j : nat) (st : run_state),
  j < List.length ds ->
  (forall k, k < j -> extraction_shaped (extract_reply w (i + k)) = true) ->
  truthy (recipe_reply w (i + j)) = true ->
  truthy (extract_reply w (i + j)) = true ->
  iterate (extract_reply w (i + j)) = Raise e ->
  dish_loop w i ds st = Raise e.
Proof.
  induction ds as [|d ds IH]; intros i j st Hj Hs Hr Ht He; simpl in Hj; [lia|].
  destruct j as [|j]; simpl.
  - rewrite Nat.add_0_r in *. unfold process_dish. rewrite Hr, Ht.
    unfold extend. rewrite He. reflexivity.
  - rewrite process_dish_shaped
      by (specialize (Hs 0); rewrite Nat.add_0_r in Hs; apply Hs; lia).
    rewrite bind_Ok. replace (i + S j) with (S i + j) in * by lia.
    apply (IH (S i) j); try assumption; [lia|].
    intros k Hk. replace (S i + k) with (i + S k) by lia. apply Hs; lia.
Qed.

(** X7.  The handler does not check what the extraction returned: when the
    reply for a dish is a number other than zero or [True] (the replies for
    the dishes before it having the asked shape), [extend] raises
    [TypeError] and the run ends there, with no list and no message. *)
Theorem scalar_extraction_reply_aborts (w : world) (dishes : list DishRequest)
    (j : nat) :
  j < List.length (valid_dishes dishes) ->
  (forall k, k < j -> extraction_shaped (extract_reply w k) = true) ->
  truthy (recipe_reply w j) = true ->
  truthy (extract_reply w j) = true ->
  (exists z, extract_reply w j = VInt z) \/ extract_reply w j = VBool true ->
  generate_grocery_list w dishes = Raise TypeError.
Proof.
  intros Hj Hs Hr Ht Hv. unfold generate_grocery_list.
  destruct (valid_dishes dishes) as [|d valid] eqn:Hvalid; [simpl in Hj; lia|].
  rewrite (@dish_loop_raises w TypeError (d :: valid) 0 j start);
    try assumption; [reflexivity|].
  simpl. destruct Hv as [[z Hz]|Hb]; [rewrite Hz | rewrite Hb]; reflexivity.
Qed.

Lemma scalar_extraction_reply_aborts_witness :
  generate_grocery_list
    {| recipe_reply := fun _ => VStr (lit "Add salt.");
       extract_reply := fun i =>
         match i with 0 => bucket_value [entry "salt" "1 tsp"] | _ => VInt 5 end;
       categorize_reply := set_value scenario_set |}
    [soup; cake]
  = Raise TypeError.
Proof.
  apply (@scalar_extraction_reply_aborts _ [soup; cake] 1).
  - simpl; lia.
  - intros k Hk. destruct k; [reflexivity | lia].
  - reflexivity.
  - reflexivity.
  - left. exists 5%Z. reflexivity.
Defined.

Lemma prompt_lines_raise (total : list pyval) :
  forallb has_entry_keys total = false ->
  exists e,
    for_each (fun (_ : unit) it =>
                _ <- subscript it (lit "item") ;;
                _ <- subscript it (lit "quantity") ;; Ok tt) tt total
    = Raise e
    /\ (e = KeyError \/ e = TypeError).
Proof.
  induction total as [|v total IH]; simpl; [discriminate|].
  intros H. unfold has_entry_keys in H.
  destruct v as [| | | | |d]; simpl;
    try (exists TypeError; split; [reflexivity | right; reflexivity]).
  simpl in H.
  destruct (dict_lookup (lit "item") d); simpl;
    [|exists KeyError; split; [reflexivity | left; reflexivity]].
  destruct (dict_lookup (lit "quantity") d); simpl;
    [|exists KeyError; split; [reflexivity | left; reflexivity]].
  simpl in H. apply IH; exact H.
Qed.

(** X8.  [categorize_and_normalize_ingredients] hands back what the
    capability replied exactly when every accumulated ingredient is an
    object with the keys ["item"] and ["quantity"]; otherwise building the
    prompt raises [KeyError] or [TypeError] and the capability's reply is
    never looked at. *)
Theorem categorize_needs_entry_keys (w : world) (total : list pyval) :
  (forallb has_entry_keys total = true <->
   categorize_and_normalize_ingredients w total = Ok (categorize_reply w))
  /\ (forallb has_entry_keys total = false ->
      exists e, categorize_and_normalize_ingredients w total = Raise e
                /\ (e = KeyError \/ e = TypeError)).
Proof.
  assert (Hbad : forallb has_entry_keys total = false ->
                 exists e, categorize_and_normalize_ingredients w total = Raise e
                           /\ (e = KeyError \/ e = TypeError)).
  { intros H. destruct (prompt_lines_raise total H) as (e & He & Hk).
    exists e. split; [|exact Hk].
    unfold categorize_and_normalize_ingredients. rewrite He. reflexivity. }
  split; [|exact Hbad]. split.
  - apply categorize_with_keys.
  - intros H. destruct (forallb has_entry_keys total); [reflexivity|].
    destruct (Hbad eq_refl) as (e & He & _). congruence.
Qed.

(* ================================================================== *)
(** * The Aggregator: sizes, names, malformed entries *)
(* ================================================================== *)

Lemma first_occurrences_length (ks : list pystr) :
  List.length (first_occurrences ks) <= List.length ks.
Proof.
  induction ks as [|a ks IH]; simpl; [lia|].
  pose proof (filter_length_le (fun x => negb (PyStr.eqb x a))
                               (first_occurrences ks)). lia.
Qed.

Lemma first_occurrences_full (ks : list pystr) :
  List.length (first_occurrences ks) = List.length ks <-> NoDup ks.
Proof.
  split; [|intros H; rewrite first_occurrences_distinct by exact H; reflexivity].
  induction ks as [|a ks IH]; simpl; intros H; [constructor|].
  pose proof (filter_length_le (fun x => negb (PyStr.eqb x a))
                               (first_occurrences ks)) as Hf.
  pose proof (first_occurrences_length ks) as Hl.
  constructor.
  - assert (Hall : forallb (fun x => negb (PyStr.eqb x a))
                           (first_occurrences ks) = true)
      by (apply filter_length_forallb; lia).
    rewrite forallb_forall in Hall. intros Hin.
    apply (proj2 (first_occurrences_In ks a)) in Hin.
    apply Hall in Hin. rewrite pystr_eqb_refl in Hin. discriminate.
  - apply IH. lia.
Qed.

(** X9.  Aggregation never lengthens a bucket, and it keeps the length of
    a bucket exactly when no two of its entries have the same lower-cased
    name. *)
Theorem aggregation_never_adds_entries (x : pyval) (cs : CategorizedSet) :
  as_categorized_set x = Some cs ->
  exists out,
    aggregate_ingredients x = Ok (set_value out)
    /\ List.length (pantry out) <= List.length (pantry cs)
    /\ (List.length (pantry out) = List.length (pantry cs)
        <-> NoDup (List.map merge_key (pantry cs)))
    /\ List.length (perishables out) <= List.length (perishables cs)
    /\ (List.length (perishables out) = List.length (perishables cs)
        <-> NoDup (List.map merge_key (perishables cs))).
Proof.
  intros Hx. exists (merged_set cs).
  split; [apply aggregate_ingredients_set; exact Hx|].
  unfold merged_set, merged_bucket; simpl.
  rewrite !length_map.
  rewrite <- (length_map merge_key (pantry cs)).
  rewrite <- (length_map merge_key (perishables cs)).
  repeat split;
    try apply first_occurrences_length; apply first_occurrences_full.
Qed.

Lemma aggregation_never_adds_entries_witness :
  exists out,
    aggregate_ingredients (set_value scenario_set) = Ok (set_value out)
    /\ List.length (pantry out) <= 1
    /\ (List.length (pantry out) = 1
        <-> NoDup (List.map merge_key (pantry scenario_set)))
    /\ List.length (perishables out) <= 3
    /\ (List.length (perishables out) = 3
        <-> NoDup (List.map merge_key (perishables scenario_set))).
Proof.
  apply (@aggregation_never_adds_entries (set_value scenario_set) scenario_set).
  reflexivity.
Defined.

(** X10.  Each bucket keeps its own names: the items of an output bucket
    are exactly the title-cased lower-cased items of the entries of the
    same input bucket, so that no ingredient is dropped, none is made up,
    and none moves to the other bucket. *)
Theorem aggregation_keeps_names (x : pyval) (cs : CategorizedSet) :
  as_categorized_set x = Some cs ->
  exists out,
    aggregate_ingredients x = Ok (set_value out)
    /\ (forall n, In n (List.map item (pantry out))
          <-> exists e, In e (pantry cs)
                        /\ n = PyStr.title (PyStr.lower (item e)))
    /\ (forall n, In n (List.map item (perishables out))
          <-> exists e, In e (perishables cs)
                        /\ n = PyStr.title (PyStr.lower (item e))).
Proof.
  intros Hx. exists (merged_set cs).
  split; [apply aggregate_ingredients_set; exact Hx|].
  assert (H : forall es n,
            In n (List.map item (merged_bucket es))
            <-> exists e, In e es /\ n = PyStr.title (PyStr.lower (item e))).
  { intros es n. unfold merged_bucket. rewrite map_map; simpl.
    rewrite in_map_iff. split.
    - intros (k & <- & Hk). rewrite first_occurrences_In, in_map_iff in Hk.
      destruct Hk as (e & <- & He). exists e. split; [exact He | reflexivity].
    - intros (e & He & ->). exists (merge_key e). split; [reflexivity|].
      rewrite first_occurrences_In. apply in_map; exact He. }
  split; intros n; apply H.
Qed.

Lemma aggregation_keeps_names_witness :
  exists out,
    aggregate_ingredients (set_value scenario_set) = Ok (set_value out)
    /\ (forall n, In n (List.map item (pantry out))
          <-> exists e, In e (pantry scenario_set)
                        /\ n = PyStr.title (PyStr.lower (item e)))
    /\ (forall n, In n (List.map item (perishables out))
          <-> exists e, In e (perishables scenario_set)
                        /\ n = PyStr.title (PyStr.lower (item e))).
Proof.
  apply (@aggregation_keeps_names (set_value scenario_set) scenario_set).
  reflexivity.
Defined.

Lemma for_each_app (S : Type) (body : S -> pyval -> result S)
    (l1 l2 : list pyval) :
  forall st,
  for_each body st (l1 ++ l2)
  = st' <- for_each body st l1 ;; for_each body st' l2.
Proof.
  induction l1 as [|v l1 IH]; intros st; simpl; [reflexivity|].
  destruct (body st v); simpl; auto.
Qed.

Lemma merge_item_raises (aggregated : list (pystr * pyval)) (v : pyval)
    (e : pyexc) :
  read_entry v = Raise e -> merge_item aggregated v = Raise e.
Proof.
  unfold read_entry, merge_item.
  destruct (subscript v (lit "item")) as [raw| |]; simpl; try congruence.
  destruct (lower_method raw) as [nm| |]; simpl; try congruence.
  intros H. rewrite H. destruct (dict_lookup nm aggregated); reflexivity.
Qed.

Lemma aggregate_bucket_raises (d : list (pystr * pyval)) (key : pystr)
    (pre rest : list pyval) (es : list IngredientEntry) (v : pyval)
    (e : pyexc) :
  dict_lookup key d = Some (VList (pre ++ v :: rest)) ->
  as_entries pre = Some es ->
  read_entry v = Raise e ->
  aggregate_bucket (VDict d) key = Raise e.
Proof.
  intros Hd Hpre Hv. unfold aggregate_bucket; simpl. rewrite Hd; simpl.
  rewrite for_each_app.
  pose proof (for_each_entries pre [] Hpre) as Hf.
  change (for_each merge_item [] pre = Ok (aggregated_after es)) in Hf.
  rewrite Hf; simpl.
  rewrite (merge_item_raises _ v Hv). reflexivity.
Qed.

(** X11.  The first item of a bucket that lacks ["item"] or ["quantity"],
    is not an object, or has an item that is not a string, ends the
    aggregation with its exception ([KeyError], [TypeError] or
    [AttributeError]): nothing is returned for the entries before it, for
    those after it, or for the other bucket. *)
Theorem first_malformed_entry_raises (d : list (pystr * pyval))
    (pre rest : list pyval) (es : list IngredientEntry) (v : pyval)
    (e : pyexc) :
  as_entries pre = Some es ->
  read_entry v = Raise e ->
  (dict_lookup (lit "pantry") d = Some (VList (pre ++ v :: rest)) ->
   aggregate_ingredients (VDict d) = Raise e)
  /\ (forall ps,
        bucket_or_empty d (lit "pantry") = Some ps ->
        dict_lookup (lit "perishables") d = Some (VList (pre ++ v :: rest)) ->
        aggregate_ingredients (VDict d) = Raise e).
Proof.
  intros Hpre Hv. split.
  - intros Hd. unfold aggregate_ingredients.
    rewrite (@aggregate_bucket_raises d (lit "pantry") pre rest es v e Hd Hpre Hv).
    reflexivity.
  - intros ps Hp Hd. unfold aggregate_ingredients.
    rewrite (aggregate_bucket_entries d (lit "pantry") Hp); simpl.
    rewrite (@aggregate_bucket_raises d (lit "perishables") pre rest es v e Hd Hpre Hv).
    reflexivity.
Qed.

Lemma first_malformed_entry_raises_witness :
  aggregate_ingredients
    (VDict [(lit "pantry",
             VList [entry_value (entry "salt" "1 tsp");
                    VDict [(lit "item", VStr (lit "flour"))];
                    entry_value (entry "rice" "1 cup")]);
            (lit "perishables", VList [])])
  = Raise KeyError
  /\ aggregate_ingredients
       (VDict [(lit "perishables",
                VList [entry_value (entry "egg" "2");
                       VDict [(lit "item", VInt 7); (lit "quantity", VInt 1)]])])
     = Raise AttributeError.
Proof.
  split.
  - apply (@first_malformed_entry_raises _
             [entry_value (entry "salt" "1 tsp")]
             [entry_value (entry "rice" "1 cup")]
             [entry "salt" "1 tsp"]
             (VDict [(lit "item", VStr (lit "flour"))]) KeyError);
      reflexivity.
  - apply (fun H1 H2 => proj2 (@first_malformed_entry_raises
             [(lit "perishables",
               VList [entry_value (entry "egg" "2");
                      VDict [(lit "item", VInt 7); (lit "quantity", VInt 1)]])]
             [entry_value (entry "egg" "2")] [] [entry "egg" "2"]
             (VDict [(lit "item", VInt 7); (lit "quantity", VInt 1)])
             AttributeError H1 H2) []);
      reflexivity.
Defined.

Lemma lookup_snoc_other (V : Type) (acc : list (pystr * V)) (k k' : pystr)
    (v : V) :
  k <> k' -> dict_lookup k' (acc ++ [(k, v)]) = dict_lookup k' acc.
Proof.
  intros Hk. induction acc as [|[a b] acc IH]; simpl.
  - destruct (PyStr.eqb k k') eqn:E; [|reflexivity].
    apply pystr_eqb_eq in E. congruence.
  - destruct (PyStr.eqb a k'); [reflexivity | exact IH].
Qed.

Lemma store_new_key (V : Type) (acc : list (pystr * V)) (k : pystr) (v : V) :
  dict_lookup k acc = None -> dict_store k v acc = acc ++ [(k, v)].
Proof.
  induction acc as [|[a b] acc IH]; simpl; [reflexivity|].
  destruct (PyStr.eqb a k); [discriminate|].
  intros H. rewrite IH by exact H. reflexivity.
Qed.

Lemma row_value_item (r : pystr * pyval) :
  subscript (row_value r) (lit "item") = Ok (VStr (fst r)).
Proof. reflexivity. Qed.

Lemma row_value_quantity (r : pystr * pyval) :
  subscript (row_value r) (lit "quantity") = Ok (snd r).
Proof. reflexivity. Qed.

Lemma merge_item_new_row (acc : list (pystr * pyval)) (r : pystr * pyval) :
  dict_lookup (PyStr.lower (fst r)) acc = None ->
  merge_item acc (row_value r) = Ok (acc ++ [(PyStr.lower (fst r), snd r)]).
Proof.
  intros H. unfold merge_item.
  rewrite row_value_item, bind_Ok. unfold lower_method. rewrite bind_Ok, H.
  rewrite row_value_quantity, bind_Ok, store_new_key by exact H.
  reflexivity.
Qed.

Lemma for_each_distinct_rows (rows : list (pystr * pyval)) :
  forall acc,
  NoDup (List.map (fun r => PyStr.lower (fst r)) rows) ->
  (forall r, In r rows -> dict_lookup (PyStr.lower (fst r)) acc = None) ->
  for_each merge_item acc (List.map row_value rows)
  = Ok (acc ++ List.map (fun r => (PyStr.lower (fst r), snd r)) rows).
Proof.
  induction rows as [|r rows IH]; intros acc Hnd Hacc.
  - simpl. rewrite app_nil_r. reflexivity.
  - inversion Hnd as [|? ? Hnotin Hnd']; subst.
    cbn [List.map for_each].
    rewrite merge_item_new_row by (apply Hacc; left; reflexivity).
    rewrite bind_Ok, IH; [rewrite <- app_assoc; reflexivity | exact Hnd' |].
    intros r' Hr'. rewrite lookup_snoc_other.
    + apply Hacc. right; exact Hr'.
    + intros E. apply Hnotin. rewrite E.
      apply (in_map (fun r => PyStr.lower (fst r))). exact Hr'.
Qed.

(** X12.  Where the names of a bucket are pairwise different once
    lower-cased, the Aggregator changes the spelling of the names and
    nothing else: every quantity comes out as it went in, whatever JSON
    value it is (a number, [None], a list), and is never checked to be a
    string. *)
Theorem distinct_names_keep_quantities (ps qs : list (pystr * pyval)) :
  NoDup (List.map (fun r => PyStr.lower (fst r)) ps) ->
  NoDup (List.map (fun r => PyStr.lower (fst r)) qs) ->
  aggregate_ingredients
    (VDict [(lit "pantry", VList (List.map row_value ps));
            (lit "perishables", VList (List.map row_value qs))])
  = Ok (VDict [(lit "pantry", VList (List.map displayed_row ps));
               (lit "perishables", VList (List.map displayed_row qs))]).
Proof.
  intros Hp Hq. unfold aggregate_ingredients, aggregate_bucket; simpl.
  rewrite (for_each_distinct_rows ps [] Hp) by reflexivity. simpl.
  rewrite (for_each_distinct_rows qs [] Hq) by reflexivity. simpl.
  unfold final_list. rewrite !map_map. reflexivity.
Qed.

Lemma distinct_names_keep_quantities_witness :
  aggregate_ingredients
    (VDict [(lit "pantry",
             VList [row_value (lit "salt", VInt 2);
                    row_value (lit "RICE", VNone)]);
            (lit "perishables", VList [])])
  = Ok (VDict [(lit "pantry",
                VList [row_value (lit "Salt", VInt 2);
                       row_value (lit "Rice", VNone)]);
               (lit "perishables", VList [])]).
Proof.
  apply (@distinct_names_keep_quantities
           [(lit "salt", VInt 2); (lit "RICE", VNone)] []).
  - repeat constructor; simpl; intuition discriminate.
  - constructor.
Defined.

Lemma aggregate_bucket_list (d : list (pystr * pyval)) (key : pystr)
    (l : list pyval) :
  dict_lookup key d = Some (VList l) ->
  aggregate_bucket (VDict d) key = for_each merge_item [] l.
Proof.
  intros H. unfold aggregate_bucket, get_default. rewrite H. reflexivity.
Qed.

(** X19.  A name that comes back after its first quantity was stored as
    something else than a string or a list (a number, [None], [True], an
    object) ends the aggregation with [TypeError]: the [+=] of line 136
    cannot append text to it. *)
Theorem repeated_name_on_scalar_quantity_raises
    (pre mid : list (pystr * pyval)) (rest : list pyval)
    (r1 : pystr * pyval) (i2 q2 : pystr) (qs : list (pystr * pyval)) :
  NoDup (List.map (fun r => PyStr.lower (fst r)) (pre ++ r1 :: mid)) ->
  PyStr.lower i2 = PyStr.lower (fst r1) ->
  (forall s, snd r1 <> VStr s) ->
  (forall l, snd r1 <> VList l) ->
  aggregate_ingredients
    (VDict [(lit "pantry",
             VList (List.map row_value (pre ++ r1 :: mid)
                      ++ row_value (i2, VStr q2) :: rest));
            (lit "perishables", VList (List.map row_value qs))])
  = Raise TypeError.
Proof.
  intros Hnd Hk Hs Hl. unfold aggregate_ingredients.
  match goal with
  | |- context [aggregate_bucket (VDict ?d) (lit "pantry")] =>
      rewrite (@aggregate_bucket_list d (lit "pantry")
                 (List.map row_value (pre ++ r1 :: mid)
                    ++ row_value (i2, VStr q2) :: rest) eq_refl)
  end.
  rewrite for_each_app.
  rewrite (for_each_distinct_rows (pre ++ r1 :: mid) [] Hnd) by reflexivity.
  rewrite bind_Ok. cbn [for_each app].
  assert (Hm : merge_item
                 (List.map (fun r => (PyStr.lower (fst r), snd r))
                           (pre ++ r1 :: mid))
                 (row_value (i2, VStr q2)) = Raise TypeError).
  { unfold merge_item. rewrite row_value_item, bind_Ok.
    unfold lower_method. rewrite bind_Ok. cbn [fst]. rewrite Hk.
    assert (Hlook : dict_lookup (PyStr.lower (fst r1))
                      (List.map (fun r => (PyStr.lower (fst r), snd r))
                                (pre ++ r1 :: mid)) = Some (snd r1)).
    { clear Hk. revert Hnd. induction pre as [|p pre IH]; simpl; intros Hnd.
      - rewrite pystr_eqb_refl. reflexivity.
      - inversion Hnd as [|? ? Hnotin Hnd']; subst.
        destruct (PyStr.eqb (PyStr.lower (fst p)) (PyStr.lower (fst r1))) eqn:E.
        + apply pystr_eqb_eq in E. exfalso. apply Hnotin. rewrite E.
          rewrite map_app. apply in_or_app. right. left. reflexivity.
        + apply IH; exact Hnd'. }
    rewrite Hlook, row_value_quantity, bind_Ok. cbn [snd format_field].
    rewrite bind_Ok. unfold iadd_str.
    destruct (snd r1) as [| | |s|l|d] eqn:E; try reflexivity.
    - exfalso. apply (Hs s). reflexivity.
    - exfalso. apply (Hl l). reflexivity. }
  rewrite Hm. reflexivity.
Qed.

Lemma repeated_name_on_scalar_quantity_raises_witness :
  aggregate_ingredients
    (VDict [(lit "pantry",
             VList [row_value (lit "salt", VInt 2);
                    row_value (lit "rice", VStr (lit "1 cup"));
                    row_value (lit "Salt", VStr (lit "1 tsp"))]);
            (lit "perishables", VList [])])
  = Raise TypeError.
Proof.
  apply (@repeated_name_on_scalar_quantity_raises
           [] [(lit "rice", VStr (lit "1 cup"))] []
           (lit "salt", VInt 2) (lit "Salt") (lit "1 tsp") []).
  - repeat constructor; simpl; intuition discriminate.
  - reflexivity.
  - discriminate.
  - discriminate.
Defined.

(* ================================================================== *)
(** * The page shown for a grocery list *)
(* ================================================================== *)

Lemma show_item_entry (p : page) (e : IngredientEntry) :
  show_item p (entry_value e)
  = Ok {| displayed := displayed p ++ [Written (entry_written e)];
          grocery_list_text := grocery_list_text p ++ entry_copied e |}.
Proof. destruct e; reflexivity. Qed.

Lemma for_each_show_entries (es : list IngredientEntry) :
  forall p,
  for_each show_item p (List.map entry_value es)
  = Ok {| displayed :=
            displayed p ++ List.map (fun e => Written (entry_written e)) es;
          grocery_list_text :=
            grocery_list_text p ++ List.concat (List.map entry_copied es) |}.
Proof.
  induction es as [|e es IH]; intros p; cbn [List.map for_each List.concat].
  - rewrite !app_nil_r. destruct p; reflexivity.
  - rewrite show_item_entry, bind_Ok, IH. cbn [displayed grocery_list_text].
    rewrite <- !app_assoc. reflexivity.
Qed.

Lemma show_bucket_entries (cs : CategorizedSet) (key : pystr)
    (none : display) (es : list IngredientEntry) (p : page) :
  dict_lookup key
    [(lit "pantry", bucket_value (pantry cs));
     (lit "perishables", bucket_value (perishables cs))]
  = Some (bucket_value es) ->
  show_bucket (set_value cs) key none p
  = Ok {| displayed := displayed p ++ bucket_lines none es;
          grocery_list_text :=
            grocery_list_text p ++ List.concat (List.map entry_copied es) |}.
Proof.
  intros H. unfold show_bucket, set_value, get_default, subscript.
  rewrite H, bind_Ok. destruct es as [|e es].
  - simpl. rewrite app_nil_r. reflexivity.
  - change (truthy (bucket_value (e :: es))) with true. cbv iota.
    rewrite bind_Ok. unfold bucket_value, iterate. rewrite bind_Ok.
    apply for_each_show_entries.
Qed.

Lemma show_grocery_list_set (cs : CategorizedSet) :
  show_grocery_list (set_value cs)
  = Ok ([ListTitle; PantryHeading]
          ++ bucket_lines NoPantryItems (pantry cs)
          ++ [PerishablesHeading]
          ++ bucket_lines NoPerishables (perishables cs)
          ++ [Rule; CopyTitle; CopyHint;
              CodeBlock (List.concat (List.map entry_copied
                                   (pantry cs ++ perishables cs)))]).
Proof.
  unfold show_grocery_list.
  rewrite (@show_bucket_entries cs (lit "pantry") NoPantryItems (pantry cs))
    by reflexivity.
  rewrite bind_Ok.
  rewrite (@show_bucket_entries cs (lit "perishables") NoPerishables
             (perishables cs)) by reflexivity.
  rewrite bind_Ok. cbn [displayed grocery_list_text put].
  rewrite map_app, List.concat_app. cbn [app].
  rewrite <- !app_assoc. reflexivity.
Qed.

(** X13.  For a CategorizedSet, what is shown after the aggregation is, in
    this order: the pantry heading with one line per aggregated pantry
    entry (or the message that there is none), the perishables heading
    with one line per aggregated perishables entry (or its message), and
    the copy block, whose text is the line "- Item: quantity" and a line
    feed for every aggregated entry, pantry first. *)
Theorem aggregated_list_shown (x : pyval) (cs : CategorizedSet) :
  as_categorized_set x = Some cs ->
  (final_grocery_list <- aggregate_ingredients x ;;
   show_grocery_list final_grocery_list)
  = Ok ([ListTitle; PantryHeading]
          ++ bucket_lines NoPantryItems (merged_bucket (pantry cs))
          ++ [PerishablesHeading]
          ++ bucket_lines NoPerishables (merged_bucket (perishables cs))
          ++ [Rule; CopyTitle; CopyHint;
              CodeBlock
                (List.concat (List.map entry_copied
                           (merged_bucket (pantry cs)
                              ++ merged_bucket (perishables cs))))]).
Proof.
  intros Hx. rewrite (aggregate_ingredients_set x Hx), bind_Ok.
  apply show_grocery_list_set.
Qed.

Lemma aggregated_list_shown_witness :
  (final_grocery_list <- aggregate_ingredients (set_value scenario_set) ;;
   show_grocery_list final_grocery_list)
  = Ok [ListTitle; PantryHeading;
        Written (lit "- **Flour**: 1 cup");
        PerishablesHeading;
        Written (lit "- **Egg**: 2 + 3");
        Written (lit "- **Milk**: 1 cup");
        Rule; CopyTitle; CopyHint;
        CodeBlock (lit "- Flour: 1 cup" ++ [10%N]
                   ++ lit "- Egg: 2 + 3" ++ [10%N]
                   ++ lit "- Milk: 1 cup" ++ [10%N])].
Proof.
  rewrite (@aggregated_list_shown (set_value scenario_set) scenario_set)
    by reflexivity.
  reflexivity.
Defined.

(* ================================================================== *)
(** * [call_gemini_api]: what it returns, what it lets through *)
(* ================================================================== *)

Section ApiFacts.

Variable json_loads : pystr -> loaded.

Lemma truthy_dict_with (k : pystr) (d : list (pystr * pyval)) (v : pyval) :
  dict_lookup k d = Some v -> truthy (VDict d) = true.
Proof. destruct d; [discriminate | reflexivity]. Qed.

Lemma lookup_or_none_some (k : pystr) (d : list (pystr * pyval)) (v : pyval) :
  dict_lookup k d = Some v -> lookup_or_none k d = v.
Proof. unfold lookup_or_none. intros ->. reflexivity. Qed.

(** A body with a first candidate, its content and a first part. *)
Lemma call_on_parts (schema : bool) (d c ct part : list (pystr * pyval))
    (cs ps : list pyval) :
  dict_lookup (lit "candidates") d = Some (VList (VDict c :: cs)) ->
  dict_lookup (lit "content") c = Some (VDict ct) ->
  dict_lookup (lit "parts") ct = Some (VList (VDict part :: ps)) ->
  call_gemini_api json_loads schema (Responded (VDict d))
  = if schema then decode json_loads (lookup_or_none (lit "text") part)
    else Returned (lookup_or_none (lit "text") part, None).
Proof.
  intros Hd Hc Hct.
  assert (Hfc : first_content (VDict d) = Returned (VDict ct)).
  { unfold first_content, first_candidate, at_key. rewrite Hd. simpl.
    rewrite Hc. reflexivity. }
  assert (Hp : has_parts (VDict d) = Returned true).
  { unfold has_parts, get_or_none at 1.
    rewrite (@lookup_or_none_some _ _ _ Hd). simpl and_then. cbv iota.
    unfold first_candidate at 1, at_key. rewrite Hd. simpl and_then.
    unfold get_or_none at 1. rewrite (@lookup_or_none_some _ _ _ Hc).
    simpl and_then. rewrite (@truthy_dict_with _ _ _ Hct), Hfc.
    simpl and_then. unfold get_or_none.
    rewrite (@lookup_or_none_some _ _ _ Hct). reflexivity. }
  unfold call_gemini_api. rewrite Hp, Hfc. simpl and_then.
  unfold at_key. rewrite Hct. reflexivity.
Qed.

(** X14.  Of a response with candidates and parts, [call_gemini_api] reads
    the first part of the first candidate only: without a schema it
    returns the ["text"] of that part ([None] if the part has none) and
    shows no error, whatever the other parts, the other candidates and
    the other keys hold. *)
Theorem first_part_only (d c ct part : list (pystr * pyval))
    (cs ps : list pyval) :
  dict_lookup (lit "candidates") d = Some (VList (VDict c :: cs)) ->
  dict_lookup (lit "content") c = Some (VDict ct) ->
  dict_lookup (lit "parts") ct = Some (VList (VDict part :: ps)) ->
  call_gemini_api json_loads false (Responded (VDict d))
  = Returned (lookup_or_none (lit "text") part, None).
Proof. intros Hd Hc Hct. apply (@call_on_parts false _ _ _ _ _ _ Hd Hc Hct). Qed.

(** X15.  With a schema, what becomes of a first part whose ["text"] is a
    string is decided by [json.loads] on it: the decoded value is returned
    as it is and no error is shown; a [JSONDecodeError] is caught, [None]
    is returned and the decoding error shown; any other exception of
    [json.loads] ([ValueError], [RecursionError]) is caught by no [except]
    and the call raises it. *)
Theorem schema_text_is_decoded (d c ct part : list (pystr * pyval))
    (cs ps : list pyval) (s : pystr) :
  dict_lookup (lit "candidates") d = Some (VList (VDict c :: cs)) ->
  dict_lookup (lit "content") c = Some (VDict ct) ->
  dict_lookup (lit "parts") ct = Some (VList (VDict part :: ps)) ->
  dict_lookup (lit "text") part = Some (VStr s) ->
  call_gemini_api json_loads true (Responded (VDict d))
  = match json_loads s with
    | Decoded v => Returned (v, None)
    | NotJson => Returned (VNone, Some DecodeFailed)
    | LoadsRaised e => Raised e
    end.
Proof.
  intros Hd Hc Hct Ht. rewrite (@call_on_parts true _ _ _ _ _ _ Hd Hc Hct).
  rewrite (@lookup_or_none_some _ _ _ Ht). reflexivity.
Qed.

(** X16.  With a schema, a first part without a ["text"], or with a
    ["text"] that is not a string, makes [json.loads] raise a [TypeError]
    that no [except] of the function catches: the call raises instead of
    returning [None]. *)
Theorem schema_without_text_raises (d c ct part : list (pystr * pyval))
    (cs ps : list pyval) :
  dict_lookup (lit "candidates") d = Some (VList (VDict c :: cs)) ->
  dict_lookup (lit "content") c = Some (VDict ct) ->
  dict_lookup (lit "parts") ct = Some (VList (VDict part :: ps)) ->
  (forall s, dict_lookup (lit "text") part <> Some (VStr s)) ->
  call_gemini_api json_loads true (Responded (VDict d))
  = Raised (Exc TypeError).
Proof.
  intros Hd Hc Hct Ht. rewrite (@call_on_parts true _ _ _ _ _ _ Hd Hc Hct).
  unfold lookup_or_none.
  destruct (dict_lookup (lit "text") part) as [[| | |s| |]|];
    try reflexivity.
  exfalso. apply (Ht s). reflexivity.
Qed.

(** X17.  A body that is a JSON object but lacks a link of the chain is
    reported, not raised: when ["candidates"] is missing, [None] or empty,
    when the first candidate is an object whose ["content"] is missing,
    [None] or empty, or when the content is an object whose ["parts"] is
    missing, [None] or empty, the call returns [None] and shows the
    "unexpected structure" error, with or without a schema. *)
Theorem missing_link_is_reported (schema : bool) (d : list (pystr * pyval)) :
  (truthy (lookup_or_none (lit "candidates") d) = false ->
   call_gemini_api json_loads schema (Responded (VDict d))
   = Returned (VNone, Some UnexpectedStructure))
  /\ (forall c cs,
        dict_lookup (lit "candidates") d = Some (VList (VDict c :: cs)) ->
        truthy (lookup_or_none (lit "content") c) = false ->
        call_gemini_api json_loads schema (Responded (VDict d))
        = Returned (VNone, Some UnexpectedStructure))
  /\ (forall c cs ct,
        dict_lookup (lit "candidates") d = Some (VList (VDict c :: cs)) ->
        dict_lookup (lit "content") c = Some (VDict ct) ->
        truthy (lookup_or_none (lit "parts") ct) = false ->
        call_gemini_api json_loads schema (Responded (VDict d))
        = Returned (VNone, Some UnexpectedStructure)).
Proof.
  split; [|split].
  - intros H. unfold call_gemini_api, has_parts, get_or_none.
    simpl and_then. rewrite H. reflexivity.
  - intros c cs Hd Hc. unfold call_gemini_api, has_parts, get_or_none at 1.
    rewrite (@lookup_or_none_some _ _ _ Hd). simpl and_then. cbv iota.
    unfold first_candidate, at_key. rewrite Hd. simpl and_then.
    unfold get_or_none. simpl and_then. rewrite Hc. reflexivity.
  - intros c cs ct Hd Hc Hct.
    unfold call_gemini_api, has_parts, get_or_none at 1.
    rewrite (@lookup_or_none_some _ _ _ Hd). simpl and_then. cbv iota.
    unfold first_candidate at 1, at_key. rewrite Hd. simpl and_then.
    unfold get_or_none at 1. rewrite (@lookup_or_none_some _ _ _ Hc).
    simpl and_then.
    unfold first_content, first_candidate, at_key. rewrite Hd.
    simpl and_then. rewrite Hc. simpl and_then.
    unfold get_or_none. simpl and_then. rewrite Hct.
    destruct ct; reflexivity.
Qed.

(** X18.  Shapes that raise: a body that is not a JSON object, and a list
    of candidates whose first element is not an object, make the call
    raise [AttributeError], which no [except] of the function catches. *)
Theorem not_an_object_raises (schema : bool) :
  (forall result, (forall d, result <> VDict d) ->
     call_gemini_api json_loads schema (Responded result)
     = Raised (Exc AttributeError))
  /\ (forall d v cs,
        dict_lookup (lit "candidates") d = Some (VList (v :: cs)) ->
        (forall c, v <> VDict c) ->
        call_gemini_api json_loads schema (Responded (VDict d))
        = Raised (Exc AttributeError)).
Proof.
  split.
  - intros result H. destruct result as [| | | | |d]; try reflexivity.
    exfalso. apply (H d). reflexivity.
  - intros d v cs Hd Hv.
    unfold call_gemini_api, has_parts, get_or_none at 1.
    rewrite (@lookup_or_none_some _ _ _ Hd). simpl and_then. cbv iota.
    unfold first_candidate, at_key. rewrite Hd. simpl and_then.
    destruct v as [| | | | |c]; try reflexivity.
    exfalso. apply (Hv c). reflexivity.
Qed.

End ApiFacts.

Lemma first_part_only_witness :
  call_gemini_api sample_loads false
    (Responded (response [(lit "text", VStr (lit "Beat the eggs."))]
                         [VDict [(lit "text", VStr (lit "Then bake."))]] []))
  = Returned (VStr (lit "Beat the eggs."), None).
Proof.
  unfold response.
  apply (@first_part_only sample_loads
           [(lit "candidates",
             VList [VDict [(lit "content",
                            VDict [(lit "parts",
                                    VList [VDict [(lit "text", VStr (lit "Beat the eggs."))];
                                           VDict [(lit "text", VStr (lit "Then bake."))]])])]])]
           [(lit "content",
             VDict [(lit "parts",
                     VList [VDict [(lit "text", VStr (lit "Beat the eggs."))];
                            VDict [(lit "text", VStr (lit "Then bake."))]])])]
           [(lit "parts",
             VList [VDict [(lit "text", VStr (lit "Beat the eggs."))];
                    VDict [(lit "text", VStr (lit "Then bake."))]])]
           [(lit "text", VStr (lit "Beat the eggs."))]
           [] [VDict [(lit "text", VStr (lit "Then bake."))]]);
    reflexivity.
Defined.

Lemma schema_text_is_decoded_witness :
  call_gemini_api sample_loads true
    (Responded (response [(lit "text", VStr (lit "[]"))] [] []))
  = Returned (VList [], None)
  /\ call_gemini_api sample_loads true
       (Responded (response [(lit "text", VStr (lit "[oops"))] [] []))
     = Returned (VNone, Some DecodeFailed)
  /\ call_gemini_api sample_loads true
       (Responded (response [(lit "text", VStr long_integer)] [] []))
     = Raised ValueError.
Proof.
  unfold response. split; [|split].
  - apply (@schema_text_is_decoded sample_loads
             [(lit "candidates",
               VList [VDict [(lit "content",
                              VDict [(lit "parts",
                                      VList [VDict [(lit "text", VStr (lit "[]"))]])])]])]
             [(lit "content",
               VDict [(lit "parts", VList [VDict [(lit "text", VStr (lit "[]"))]])])]
             [(lit "parts", VList [VDict [(lit "text", VStr (lit "[]"))]])]
             [(lit "text", VStr (lit "[]"))] [] [] (lit "[]")); reflexivity.
  - apply (@schema_text_is_decoded sample_loads
             [(lit "candidates",
               VList [VDict [(lit "content",
                              VDict [(lit "parts",
                                      VList [VDict [(lit "text", VStr (lit "[oops"))]])])]])]
             [(lit "content",
               VDict [(lit "parts", VList [VDict [(lit "text", VStr (lit "[oops"))]])])]
             [(lit "parts", VList [VDict [(lit "text", VStr (lit "[oops"))]])]
             [(lit "text", VStr (lit "[oops"))] [] [] (lit "[oops"));
      reflexivity.
  - apply (@schema_text_is_decoded sample_loads
             [(lit "candidates",
               VList [VDict [(lit "content",
                              VDict [(lit "parts",
                                      VList [VDict [(lit "text", VStr long_integer)]])])]])]
             [(lit "content",
               VDict [(lit "parts", VList [VDict [(lit "text", VStr long_integer)]])])]
             [(lit "parts", VList [VDict [(lit "text", VStr long_integer)]])]
             [(lit "text", VStr long_integer)] [] [] long_integer);
      reflexivity.
Defined.

Lemma schema_without_text_raises_witness :
  call_gemini_api sample_loads true
    (Responded (response [(lit "functionCall", VDict [])] [] []))
  = Raised (Exc TypeError).
Proof.
  unfold response.
  apply (@schema_without_text_raises sample_loads
           [(lit "candidates",
             VList [VDict [(lit "content",
                            VDict [(lit "parts",
                                    VList [VDict [(lit "functionCall", VDict [])]])])]])]
           [(lit "content",
             VDict [(lit "parts", VList [VDict [(lit "functionCall", VDict [])]])])]
           [(lit "parts", VList [VDict [(lit "functionCall", VDict [])]])]
           [(lit "functionCall", VDict [])] [] []); try reflexivity.
  intros s. discriminate.
Defined.

Lemma missing_link_is_reported_witness :
  call_gemini_api sample_loads true
    (Responded (VDict [(lit "promptFeedback", VDict [])]))
  = Returned (VNone, Some UnexpectedStructure)
  /\ call_gemini_api sample_loads false
       (Responded (VDict [(lit "candidates",
                           VList [VDict [(lit "finishReason",
                                          VStr (lit "SAFETY"))]])]))
     = Returned (VNone, Some UnexpectedStructure).
Proof.
  split.
  - apply (proj1 (missing_link_is_reported sample_loads true
                    [(lit "promptFeedback", VDict [])])). reflexivity.
  - apply (proj1 (proj2 (missing_link_is_reported sample_loads false
             [(lit "candidates",
               VList [VDict [(lit "finishReason", VStr (lit "SAFETY"))]])]))
             [(lit "finishReason", VStr (lit "SAFETY"))] []); reflexivity.
Defined.

Lemma not_an_object_raises_witness :
  call_gemini_api sample_loads false (Responded (VList []))
  = Raised (Exc AttributeError)
  /\ call_gemini_api sample_loads false
       (Responded (VDict [(lit "candidates", VList [VStr (lit "x")])]))
     = Raised (Exc AttributeError).
Proof.
  split.
  - apply (proj1 (not_an_object_raises sample_loads false)). discriminate.
  - apply (proj2 (not_an_object_raises sample_loads false)
             [(lit "candidates", VList [VStr (lit "x")])]
             (VStr (lit "x")) []); [reflexivity | discriminate].
Defined.
